(** * Dynamic document translator: region extraction, translation
      orchestration, agent pipeline and layout reconstruction.

    A shallow embedding of [src/main.py]: the Python back end
    ([process_image_with_ocr], [translate_text], [fallback_translation],
    [translate_text_with_agents], [create_processed_html], [upload_image])
    and the JavaScript agent framework the page ships
    ([AgentFramework], [ValidationAgent], [LanguageConsistencyAgent]).

    External collaborators (EasyOCR, Ollama, [JSON.parse]) are oracles: a
    function from the request to [Some reply], or [None] when the call
    raises.  Calls are logged, so that "which calls were issued, in which
    order" is a statement about the log. *)

From Stdlib Require Import ZArith QArith Lqa Floats Uint63 Ascii String DecimalNat DecimalString Lia.
From stdpp Require Import base decidable option list gmap strings.

Local Open Scope string_scope.
Local Open Scope list_scope.

(** ** Text primitives of the two host languages

    Text is a byte string (UTF-8).  The whitespace and case tables below
    cover the ASCII range, which is where they differ between Python and
    JavaScript; language codes and the needles searched for are ASCII. *)

Module Py.

Definition nl : string := String (ascii_of_nat 10) EmptyString.

(** [str.isspace] on the ASCII range: TAB..CR, FS..US and the space. *)
Definition isspace (c : ascii) : bool :=
  let n := nat_of_ascii c in
  ((9 <=? n)%nat && (n <=? 13)%nat) || ((28 <=? n)%nat && (n <=? 32)%nat).

Fixpoint lstrip (s : string) : string :=
  match s with
  | EmptyString => EmptyString
  | String c s' => if isspace c then lstrip s' else s
  end.

Fixpoint rstrip (s : string) : string :=
  match s with
  | EmptyString => EmptyString
  | String c s' =>
      match rstrip s' with
      | EmptyString => if isspace c then EmptyString else String c EmptyString
      | r => String c r
      end
  end.

(** [s.strip()] *)
Definition strip (s : string) : string := rstrip (lstrip s).

Definition upper_char (c : ascii) : ascii :=
  let n := nat_of_ascii c in
  if ((97 <=? n)%nat && (n <=? 122)%nat) then ascii_of_nat (n - 32) else c.

(** [s.upper()] *)
Fixpoint upper (s : string) : string :=
  match s with
  | EmptyString => EmptyString
  | String c s' => String (upper_char c) (upper s')
  end.

(** [s.replace(old, new)] for a non-empty [old]: every non-overlapping
    occurrence, scanning left to right.  [skip] counts the bytes of the
    occurrence just replaced that are still to be dropped. *)
Fixpoint replace_from (old new : string) (skip : nat) (s : string) : string :=
  match s with
  | EmptyString => EmptyString
  | String c s' =>
      match skip with
      | S k => replace_from old new k s'
      | O =>
          if String.prefix old s
          then new ++ replace_from old new (String.length old - 1) s'
          else String c (replace_from old new 0 s')
      end
  end.

Definition replace (old new s : string) : string := replace_from old new 0 s.

(** [needle in s] *)
Fixpoint contains (needle s : string) : bool :=
  String.prefix needle s ||
  match s with
  | EmptyString => false
  | String _ s' => contains needle s'
  end.

(** [sep.join(parts)] *)
Fixpoint join (sep : string) (parts : list string) : string :=
  match parts with
  | [] => ""
  | [p] => p
  | p :: rest => p ++ sep ++ join sep rest
  end.

(** [str(i)] for a non-negative index. *)
Definition str (i : nat) : string := NilZero.string_of_uint (Nat.to_uint i).

(** [enumerate(l, start)] and [enumerate(l)] *)
Fixpoint enumerate_from {A} (start : nat) (l : list A) : list (nat * A) :=
  match l with
  | [] => []
  | x :: rest => (start, x) :: enumerate_from (S start) rest
  end.

Definition enumerate {A} (l : list A) : list (nat * A) := enumerate_from 0 l.

End Py.

Module Js.

(** White space of [String.prototype.trim] on the ASCII range. *)
Definition isspace (c : ascii) : bool :=
  let n := nat_of_ascii c in
  ((9 <=? n)%nat && (n <=? 13)%nat) || (n =? 32)%nat.

Fixpoint trimStart (s : string) : string :=
  match s with
  | EmptyString => EmptyString
  | String c s' => if isspace c then trimStart s' else s
  end.

Fixpoint trimEnd (s : string) : string :=
  match s with
  | EmptyString => EmptyString
  | String c s' =>
      match trimEnd s' with
      | EmptyString => if isspace c then EmptyString else String c EmptyString
      | r => String c r
      end
  end.

Definition trim (s : string) : string := trimEnd (trimStart s).

Definition lower_char (c : ascii) : ascii :=
  let n := nat_of_ascii c in
  if ((65 <=? n)%nat && (n <=? 90)%nat) then ascii_of_nat (n + 32) else c.

Fixpoint toLowerCase (s : string) : string :=
  match s with
  | EmptyString => EmptyString
  | String c s' => String (lower_char c) (toLowerCase s')
  end.

(** A string without white space, such as the word searched for. *)
Fixpoint spaceless (s : string) : bool :=
  match s with
  | EmptyString => true
  | String c s' => negb (isspace c) && spaceless s'
  end.

(** [s.includes(needle)] *)
Fixpoint includes (needle s : string) : bool :=
  String.prefix needle s ||
  match s with
  | EmptyString => false
  | String _ s' => includes needle s'
  end.

End Js.

(** ** Numbers

    Pixel coordinates, percentages and confidences are IEEE binary64
    values in the running program.  The operations the code uses are
    collected in a class with two instances: [float] (the arithmetic the
    program runs) and [Q] (the same formulas without rounding). *)

Class Number (num : Type) := {
  num_of_Z : Z -> num;
  (** the decimal literal [p/q], e.g. [0.8] is [num_lit 8 10] *)
  num_lit : Z -> positive -> num;
  num_sub : num -> num -> num;
  num_mul : num -> num -> num;
  (** [x / y]; [None] is Python's [ZeroDivisionError] *)
  num_div : num -> num -> option num;
  (** [x < y] *)
  num_lt : num -> num -> bool;
  (** Python's [int(x)]: truncation toward zero; [None] when it raises
      (not-a-number, infinity) *)
  num_int : num -> option Z;
  (** JavaScript's [ToBoolean] on a number *)
  num_truthy : num -> bool
}.

Definition Q_div (x y : Q) : option Q :=
  if Qeq_bool y 0 then None else Some (x / y)%Q.

Definition Q_int (x : Q) : option Z := Some (Z.quot (Qnum x) (Zpos (Qden x))).

#[global] Instance Q_Number : Number Q := {|
  num_of_Z := inject_Z;
  num_lit := Qmake;
  num_sub := Qminus;
  num_mul := Qmult;
  num_div := Q_div;
  num_lt := fun x y => negb (Qle_bool y x);
  num_int := Q_int;
  num_truthy := fun x => negb (Qeq_bool x 0)
|}.

Definition float_of_Z (z : Z) : float :=
  match z with
  | Z0 => PrimFloat.zero
  | Zpos p => PrimFloat.of_uint63 (Uint63.of_Z (Zpos p))
  | Zneg p => PrimFloat.opp (PrimFloat.of_uint63 (Uint63.of_Z (Zpos p)))
  end.

Definition float_div (x y : float) : option float :=
  if PrimFloat.eqb y PrimFloat.zero then None else Some (PrimFloat.div x y).

Definition float_int (x : float) : option Z :=
  match Prim2SF x with
  | S754_zero _ => Some 0%Z
  | S754_infinity _ => None
  | S754_nan => None
  | S754_finite s m e =>
      let mag := match e with
                 | Z0 => Zpos m
                 | Zpos k => Z.shiftl (Zpos m) (Zpos k)
                 | Zneg k => Z.shiftr (Zpos m) (Zpos k)
                 end in
      Some (if s then Z.opp mag else mag)
  end.

(** The rational number a finite binary64 value stands for. *)
Definition float_to_Q (x : float) : Q :=
  match Prim2SF x with
  | S754_finite s m e =>
      let q := (inject_Z (Zpos m) * Qpower (2 # 1) e)%Q in
      if s then Qopp q else q
  | _ => 0%Q
  end.

#[global] Instance float_Number : Number float := {|
  num_of_Z := float_of_Z;
  num_lit := fun p q => PrimFloat.div (float_of_Z p) (float_of_Z (Zpos q));
  num_sub := PrimFloat.sub;
  num_mul := PrimFloat.mul;
  num_div := float_div;
  num_lt := PrimFloat.ltb;
  num_int := float_int;
  num_truthy := fun x => negb (PrimFloat.eqb x PrimFloat.zero || PrimFloat.is_nan x)
|}.

(** ** Regions and the OCR collaborator *)

(** The dictionary [{"bbox": .., "text": .., "confidence": ..}] built for
    every detected block; the quad is the list of its corner points. *)
Record region (num : Type) := mk_region {
  bbox : list (num * num);
  text : string;
  confidence : num
}.
Arguments mk_region {num} _ _ _.
Arguments bbox {num} _.
Arguments text {num} _.
Arguments confidence {num} _.

(** One entry of [reader.readtext(...)]: a tuple whose length decides what
    the extractor does with it.  [ResShort] stands for a tuple of fewer
    than two fields, [ResPair] for [(quad, text)] and [ResFull] for
    [(quad, text, confidence, ...)]. *)
Inductive ocr_result (num : Type) :=
  | ResShort
  | ResPair (quad : list (num * num)) (txt : string)
  | ResFull (quad : list (num * num)) (txt : string) (conf : num).
Arguments ResShort {num}.
Arguments ResPair {num} _ _.
Arguments ResFull {num} _ _ _.

(** An OCR attempt as the extractor issues it: the language hints and the
    [paragraph] flag. *)
Definition ocr_attempt : Type := list string * bool.

Module Ocr.
Section Extractor.
Context {num : Type} `{Number num}.

(** [easyocr.Reader(langs).readtext(image_path, detail=1, paragraph=p)];
    [None] when building the reader or reading raises.  The engine is
    taken to be deterministic: the same request gets the same answer. *)
Variable readtext : string -> list string -> bool -> option (list (ocr_result num)).

Definition language_combinations : list (list string) :=
  [ ["en"];
    ["en"; "hi"];
    ["en"; "te"];
    ["en"; "hi"; "te"];
    ["en"; "hi"; "te"; "ta"; "kn"; "ml"; "gu"; "pa"; "bn"; "or"] ].

(** [for res in results: if len(res) >= 2: bboxes.append({...})] *)
Fixpoint collect (results : list (ocr_result num)) (bboxes : list (region num))
  : list (region num) :=
  match results with
  | [] => bboxes
  | ResShort :: rest => collect rest bboxes
  | ResPair b t :: rest => collect rest (bboxes ++ [mk_region b t (num_lit 9 10)])
  | ResFull b t c :: rest => collect rest (bboxes ++ [mk_region b t c])
  end.

(** [for lang_combo in language_combinations: try: ... if bboxes: break
    except: continue], with the attempts made so far in [log]. *)
Fixpoint ladder_loop (image_path : string) (combos : list (list string))
    (bboxes : list (region num)) (log : list ocr_attempt)
  : list (region num) * list ocr_attempt :=
  match combos with
  | [] => (bboxes, log)
  | lang_combo :: rest =>
      let log' := log ++ [(lang_combo, true)] in
      match readtext image_path lang_combo true with
      | None => ladder_loop image_path rest bboxes log'
      | Some results =>
          let bboxes' := collect results bboxes in
          match bboxes' with
          | [] => ladder_loop image_path rest bboxes' log'
          | _ :: _ => (bboxes', log')
          end
      end
  end.

(** [process_image_with_ocr] over an arbitrary ladder; the retry without
    paragraph mode always asks for [['en']]. *)
Definition process_image_with_ocr_on (ladder : list (list string)) (image_path : string)
  : list (region num) * list ocr_attempt :=
  let '(bboxes, log) := ladder_loop image_path ladder [] [] in
  match bboxes with
  | [] =>
      let log' := log ++ [(["en"], false)] in
      match readtext image_path ["en"] false with
      | None => (bboxes, log')
      | Some results => (collect results bboxes, log')
      end
  | _ :: _ => (bboxes, log)
  end.

Definition process_image_with_ocr (image_path : string)
  : list (region num) * list ocr_attempt :=
  process_image_with_ocr_on language_combinations image_path.

(** What one attempt contributes when it starts from no regions: nothing
    if it raises, the regions of its well-formed entries otherwise. *)
Definition attempt_regions (image_path : string) (a : ocr_attempt) : list (region num) :=
  match readtext image_path a.1 a.2 with
  | None => []
  | Some results => collect results []
  end.

End Extractor.
End Ocr.

(** ** Translation orchestrator (Python side) *)

Record lang_info := mk_lang_info { name : string; native : string }.

(** [get_language_info] *)
Definition languages : list (string * lang_info) :=
  [ ("te", mk_lang_info "Telugu" "తెలుగు");
    ("hi", mk_lang_info "Hindi" "हिन्दी");
    ("ta", mk_lang_info "Tamil" "தமிழ்");
    ("kn", mk_lang_info "Kannada" "ಕನ್ನಡ");
    ("ml", mk_lang_info "Malayalam" "മലയാളം");
    ("en", mk_lang_info "English" "English");
    ("gu", mk_lang_info "Gujarati" "ગુજરાતી");
    ("pa", mk_lang_info "Punjabi" "ਪੰਜਾਬੀ");
    ("bn", mk_lang_info "Bengali" "বাংলা");
    ("or", mk_lang_info "Odia" "ଓଡ଼ିଆ") ].

(** [d.get(key, dflt)] on a dictionary literal kept in source order. *)
Fixpoint dict_get {V} (d : list (string * V)) (key : string) (dflt : V) : V :=
  match d with
  | [] => dflt
  | (k, v) :: rest => if decide (k = key) then v else dict_get rest key dflt
  end.

Definition get_language_info (lang_code : string) : lang_info :=
  dict_get languages lang_code (mk_lang_info "Telugu" "తెలుగు").

(** The table of [fallback_translation], per language, in source order. *)
Definition fallback_translations : list (string * list (string * string)) :=
  [ ("te",
     [ ("OFFICE OF THE REGISTRAR GENERAL", "రిజిస్ట్రార్ జనరల్ కార్యాలయం");
       ("Government of India", "భారత ప్రభుత్వం");
       ("Ministry of Home Affairs", "గృహ వ్యవహారాల మంత్రిత్వ శాఖ");
       ("TENDER ENQUIRY NOTICE", "టెండర్ విచారణ నోటీసు");
       ("Subject:", "విషయం:");
       ("Dated:", "తేదీ:");
       ("No.", "సంఖ్య:");
       ("Procurement", "కొనుగోలు");
       ("Supply", "సరఫరా");
       ("Services", "సేవలు");
       ("Contract", "ఒప్పందం");
       ("Agreement", "ఒప్పందం");
       ("Terms and Conditions", "నిబంధనలు మరియు షరతులు") ]);
    ("hi",
     [ ("OFFICE OF THE REGISTRAR GENERAL", "रजिस्ट्रार जनरल का कार्यालय");
       ("Government of India", "भारत सरकार");
       ("Ministry of Home Affairs", "गृह मंत्रालय");
       ("TENDER ENQUIRY NOTICE", "निविदा पूछताछ नोटिस");
       ("Subject:", "विषय:");
       ("Dated:", "दिनांक:");
       ("No.", "संख्या:");
       ("Procurement", "खरीद");
       ("Supply", "आपूर्ति");
       ("Services", "सेवाएं");
       ("Contract", "अनुबंध");
       ("Agreement", "समझौता");
       ("Terms and Conditions", "नियम और शर्तें") ]);
    ("ta",
     [ ("OFFICE OF THE REGISTRAR GENERAL", "பதிவாளர் ஜெனரல் அலுவலகம்");
       ("Government of India", "இந்திய அரசு");
       ("Ministry of Home Affairs", "உள்துறை அமைச்சகம்");
       ("TENDER ENQUIRY NOTICE", "டெண்டர் விசாரணை அறிவிப்பு");
       ("Subject:", "பொருள்:");
       ("Dated:", "தேதி:");
       ("No.", "எண்:");
       ("Procurement", "கொள்முதல்");
       ("Supply", "வழங்கல்");
       ("Services", "சேவைகள்");
       ("Contract", "ஒப்பந்தம்");
       ("Agreement", "ஒப்பந்தம்");
       ("Terms and Conditions", "விதிமுறைகள் மற்றும் நிபந்தனைகள்") ]) ].

(** [for english_term, translated_term in translations.items():
      translated_text = translated_text.replace(english_term, translated_term)] *)
Definition apply_translations (translations : list (string * string)) (txt : string) : string :=
  fold_left (fun translated_text entry => Py.replace entry.1 entry.2 translated_text)
            translations txt.

Definition unavailable_note (target_language txt : string) : string :=
  "[" ++ Py.upper target_language ++ "] " ++ txt ++
  " [Translation unavailable - Ollama service required]".

Definition fallback_translation (txt target_language : string) : string :=
  let translations := dict_get fallback_translations target_language [] in
  let translated_text := apply_translations translations txt in
  if decide (translated_text = txt)
  then unavailable_note target_language txt
  else translated_text.

(** The three prompts: the text goes in verbatim between fixed lines. *)
Definition improve_prompt (txt : string) : string :=
  "Improve this government document text for better clarity and formal tone while maintaining all legal meaning:"
  ++ Py.nl ++ Py.nl ++ txt ++ Py.nl ++ Py.nl ++ "Provide improved English version:".

Definition translate_prompt (li : lang_info) (txt : string) : string :=
  "Translate this government document to " ++ name li ++ " (" ++ native li ++ ") maintaining:"
  ++ Py.nl ++ Py.nl
  ++ "1. Exact legal meaning and structure" ++ Py.nl
  ++ "2. Formal government document tone  " ++ Py.nl
  ++ "3. All dates, numbers, and references intact" ++ Py.nl
  ++ "4. Complete sentences and proper grammar" ++ Py.nl ++ Py.nl
  ++ "Document:" ++ Py.nl ++ txt ++ Py.nl ++ Py.nl
  ++ "Provide complete translation in " ++ name li ++ ":".

Definition legal_prompt (li : lang_info) (txt : string) : string :=
  "You are a professional legal translator. Translate this government document to "
  ++ name li ++ " (" ++ native li ++ ") maintaining:" ++ Py.nl ++ Py.nl
  ++ "1. EXACT legal meaning and structure" ++ Py.nl
  ++ "2. Formal government document tone" ++ Py.nl
  ++ "3. All dates, numbers, and references intact" ++ Py.nl
  ++ "4. Legal terminology accuracy" ++ Py.nl
  ++ "5. Complete sentences and proper grammar" ++ Py.nl ++ Py.nl
  ++ "Document to translate:" ++ Py.nl ++ txt ++ Py.nl ++ Py.nl
  ++ "Provide the complete translation in " ++ name li ++ ":".

(** The prompt of [translate_text]. *)
Definition direct_prompt (target_language txt : string) : string :=
  if decide (target_language = "en") then improve_prompt txt
  else translate_prompt (get_language_info target_language) txt.

(** The prompt sent for one region in either mode. *)
Definition region_prompt (agent_mode : bool) (target_language txt : string) : string :=
  if agent_mode then legal_prompt (get_language_info target_language) txt
  else direct_prompt target_language txt.

(** One call to [ollama.generate]: the model and the prompt. *)
Definition llm_call : Type := string * string.

Module Translate.
Section Orchestrator.

(** [ollama.generate(model=.., prompt=..)['response']] for the call
    number [n] of the request (calls are counted from 0); [None] when it
    raises.  The reply may depend on [n]: the service can fail at one call
    and answer at the next. *)
Variable ollama_generate : nat -> string -> string -> option string.

(** Computations that issue calls: the log of the calls made so far is
    threaded through. *)
Definition M (A : Type) : Type := list llm_call -> A * list llm_call.

Definition ret {A} (a : A) : M A := fun log => (a, log).

Definition bind {A B} (m : M A) (k : A -> M B) : M B :=
  fun log => let '(a, log') := m log in k a log'.

Definition generate (model prompt : string) : M (option string) :=
  fun log => (ollama_generate (length log) model prompt, log ++ [(model, prompt)]).

Definition translate_text (txt model target_language : string) : M string :=
  let prompt := direct_prompt target_language txt in
  bind (generate model prompt) (fun reply =>
  match reply with
  | Some translated_text => ret translated_text
  | None => ret (fallback_translation txt target_language)
  end).

Definition translate_text_with_agents (txt model target_language : string) : M string :=
  let li := get_language_info target_language in
  bind (generate model (legal_prompt li txt)) (fun reply =>
  match reply with
  | Some translated_text => ret translated_text
  | None => ret (fallback_translation txt target_language)
  end).

(** [for i, bbox in enumerate(bboxes): ... translated_lines.append(region_translated)] *)
Fixpoint translate_regions {num} (agent_mode : bool) (model target_language : string)
    (bboxes : list (region num)) : M (list string) :=
  match bboxes with
  | [] => ret []
  | b :: rest =>
      bind (if agent_mode
            then translate_text_with_agents (text b) model target_language
            else translate_text (text b) model target_language) (fun region_translated =>
      bind (translate_regions agent_mode model target_language rest) (fun translated_lines =>
      ret (region_translated :: translated_lines)))
  end.

(** The translation of a region whose call is the call number [n]: the
    reply when the service answers, the fallback of that region's own text
    when it does not. *)
Definition region_result (agent_mode : bool) (model target_language : string)
    (n : nat) (txt : string) : string :=
  match ollama_generate n model (region_prompt agent_mode target_language txt) with
  | Some translated_text => translated_text
  | None => fallback_translation txt target_language
  end.

End Orchestrator.
End Translate.

(** ** Layout reconstructor *)

(** One entry of [text_overlays]. *)
Record overlay (num : Type) := mk_overlay {
  ov_text : string;
  ov_left : num;
  ov_top : num;
  ov_width : num;
  ov_height : num;
  ov_font_size : Z;
  ov_action : string
}.
Arguments mk_overlay {num} _ _ _ _ _ _ _.
Arguments ov_text {num} _.
Arguments ov_left {num} _.
Arguments ov_top {num} _.
Arguments ov_width {num} _.
Arguments ov_height {num} _.
Arguments ov_font_size {num} _.
Arguments ov_action {num} _.

(** The same overlay under another action label. *)
Definition with_action {num} (action : string) (o : overlay num) : overlay num :=
  mk_overlay (ov_text o) (ov_left o) (ov_top o) (ov_width o) (ov_height o)
             (ov_font_size o) action.

(** [get_font_family] *)
Definition font_families : list (string * string) :=
  [ ("te", "Noto+Sans+Telugu");
    ("hi", "Noto+Sans+Devanagari");
    ("ta", "Noto+Sans+Tamil");
    ("kn", "Noto+Sans+Kannada");
    ("ml", "Noto+Sans+Malayalam");
    ("gu", "Noto+Sans+Gujarati");
    ("pa", "Noto+Sans+Gurmukhi");
    ("bn", "Noto+Sans+Bengali");
    ("or", "Noto+Sans+Oriya");
    ("en", "Roboto") ].

Definition get_font_family (lang_code : string) : string :=
  dict_get font_families lang_code "Noto+Sans+Telugu".

(** What [create_processed_html] hands to its HTML template: the overlay
    list, the font family and the language name of the title.  The
    template prints these values; the printing is not modelled. *)
Record processed_html (num : Type) := mk_processed_html {
  text_overlays : list (overlay num);
  font_family : string;
  title_language : string
}.
Arguments mk_processed_html {num} _ _ _.
Arguments text_overlays {num} _.
Arguments font_family {num} _.
Arguments title_language {num} _.

Module Layout.
Section Reconstructor.
Context {num : Type} `{Number num}.

(** [min(xs)] and [max(xs)]: the first extreme element; [None] is the
    [ValueError] on an empty sequence. *)
Definition py_min (xs : list num) : option num :=
  match xs with
  | [] => None
  | x :: rest => Some (fold_left (fun best y => if num_lt y best then y else best) rest x)
  end.

Definition py_max (xs : list num) : option num :=
  match xs with
  | [] => None
  | x :: rest => Some (fold_left (fun best y => if num_lt best y then y else best) rest x)
  end.

(** [(x_min, x_max, y_min, y_max)] of a quad. *)
Definition extent (bbox_coords : list (num * num)) : option (num * num * num * num) :=
  let x_coords := map fst bbox_coords in
  let y_coords := map snd bbox_coords in
  x_min ← py_min x_coords;
  x_max ← py_max x_coords;
  y_min ← py_min y_coords;
  y_max ← py_max y_coords;
  Some (x_min, x_max, y_min, y_max).

(** The quad lies in the image: every corner has [0 <= x <= img_width]
    and [0 <= y <= img_height]. *)
Definition within_image (img_width img_height : Z) (bbox_coords : list (num * num)) : bool :=
  forallb (fun point =>
             negb (num_lt point.1 (num_of_Z 0)) && negb (num_lt (num_of_Z img_width) point.1)
             && negb (num_lt point.2 (num_of_Z 0))
             && negb (num_lt (num_of_Z img_height) point.2))
          bbox_coords.

(** [(v / size) * 100] *)
Definition percent (v : num) (size : Z) : option num :=
  q ← num_div v (num_of_Z size);
  Some (num_mul q (num_of_Z 100)).

(** [max(8, min(16, int(height_pct * 0.8)))] *)
Definition font_size_of (height_pct : num) : option Z :=
  n ← num_int (num_mul height_pct (num_lit 8 10));
  Some (Z.max 8 (Z.min 16 n)).

(** The text of a region that is not blanked:
    [translated_lines[i].strip()] when the action is [translate] and
    [i < len(translated_lines)], the recognised text otherwise. *)
Definition text_shown (translated_lines : list string) (action : string) (i : nat)
    (b : region num) : string :=
  match decide (action = "translate"), translated_lines !! i with
  | left _, Some line => Py.strip line
  | _, _ => text b
  end.

(** The body of the loop over [enumerate(bboxes)].  [None]: the body
    raises; [Some None]: [continue] (a whiteout region); [Some (Some o)]:
    [o] is appended. *)
Definition overlay_for (img_width img_height : Z) (translated_lines : list string)
    (user_actions : gmap string string) (i : nat) (b : region num)
  : option (option (overlay num)) :=
  let action := default "preserve" (user_actions !! Py.str i) in
  if decide (action = "whiteout") then Some None
  else
    let text_to_draw := text_shown translated_lines action i b in
    '(x_min, x_max, y_min, y_max) ← extent (bbox b);
    left_pct ← percent x_min img_width;
    top_pct ← percent y_min img_height;
    width_pct ← percent (num_sub x_max x_min) img_width;
    height_pct ← percent (num_sub y_max y_min) img_height;
    font_size ← font_size_of height_pct;
    Some (Some (mk_overlay text_to_draw left_pct top_pct width_pct height_pct
                           font_size action)).

(** The loop, from index [i] on. *)
Fixpoint overlays_from (img_width img_height : Z) (translated_lines : list string)
    (user_actions : gmap string string) (i : nat) (bboxes : list (region num))
  : option (list (overlay num)) :=
  match bboxes with
  | [] => Some []
  | b :: rest =>
      o ← overlay_for img_width img_height translated_lines user_actions i b;
      os ← overlays_from img_width img_height translated_lines user_actions (S i) rest;
      Some (match o with Some ov => ov :: os | None => os end)
  end.

(** [Image.open(image_path).size]; [None] when the file cannot be read. *)
Variable image_size : string -> option (Z * Z).

Definition create_processed_html (image_path : string) (bboxes : list (region num))
    (translated_lines : list string) (user_actions : gmap string string)
    (target_language : string) : option (processed_html num) :=
  let li := get_language_info target_language in
  '(img_width, img_height) ← image_size image_path;
  overlays ← overlays_from img_width img_height translated_lines user_actions 0 bboxes;
  Some (mk_processed_html overlays (get_font_family target_language) (name li)).

End Reconstructor.
End Layout.

(** ** The request handlers *)

(** One element of [response_data['text_regions']]. *)
Record region_data (num : Type) := mk_region_data {
  rd_id : nat;
  rd_title : string;
  rd_text : string;
  rd_translated : string;
  rd_x : num;
  rd_y : num;
  rd_width : num;
  rd_height : num;
  rd_action : string
}.
Arguments mk_region_data {num} _ _ _ _ _ _ _ _ _.
Arguments rd_id {num} _.
Arguments rd_title {num} _.
Arguments rd_text {num} _.
Arguments rd_translated {num} _.
Arguments rd_action {num} _.
Arguments rd_x {num} _.
Arguments rd_y {num} _.
Arguments rd_width {num} _.
Arguments rd_height {num} _.

(** The module-level globals. *)
Record session (num : Type) := mk_session {
  current_image_path : option string;
  current_bboxes : list (region num);
  current_translated_text : list string;
  current_target_language : string
}.
Arguments mk_session {num} _ _ _ _.
Arguments current_image_path {num} _.
Arguments current_bboxes {num} _.
Arguments current_translated_text {num} _.
Arguments current_target_language {num} _.

Inductive upload_response (num : Type) :=
  | NoTextDetected (error : string) (suggestions : list string)
  | Uploaded (text_regions : list (region_data num))
  | UploadFailed.
Arguments NoTextDetected {num} _ _.
Arguments Uploaded {num} _.
Arguments UploadFailed {num}.

Inductive process_response (num : Type) :=
  | NoImageProcessed
  | Processed (doc : processed_html num)
  | ProcessFailed.
Arguments NoImageProcessed {num}.
Arguments Processed {num} _.
Arguments ProcessFailed {num}.

Module Server.
Section Handlers.
Context {num : Type} `{Number num}.
Variable readtext : string -> list string -> bool -> option (list (ocr_result num)).
Variable ollama_generate : nat -> string -> string -> option string.
Variable image_size : string -> option (Z * Z).

Definition initial_session : session num := mk_session None [] [] "te".

(** The body of the loop that fills [response_data['text_regions']]. *)
Definition region_data_for (translated_lines : list string) (i : nat) (b : region num)
  : option (region_data num) :=
  '(x_min, x_max, y_min, y_max) ← Layout.extent (bbox b);
  Some (mk_region_data i ("Text Region " ++ Py.str (i + 1)) (text b)
          (match translated_lines !! i with Some line => line | None => text b end)
          x_min y_min (num_sub x_max x_min) (num_sub y_max y_min) "preserve").

Fixpoint text_regions_from (translated_lines : list string) (i : nat)
    (bboxes : list (region num)) : option (list (region_data num)) :=
  match bboxes with
  | [] => Some []
  | b :: rest =>
      r ← region_data_for translated_lines i b;
      rs ← text_regions_from translated_lines (S i) rest;
      Some (r :: rs)
  end.

Definition no_text_error : string :=
  "No text detected in the image. Please try with a clearer image or one with printed text.".

Definition no_text_suggestions : list string :=
  [ "Make sure the image is clear and not blurry";
    "Ensure the text is printed (not handwritten)";
    "Try a higher resolution image";
    "Check if the image contains readable text" ].

(** What one upload leaves behind: the response, the globals, and the
    calls made to the two collaborators. *)
Record upload_run := mk_upload_run {
  response : upload_response num;
  globals : session num;
  ocr_log : list ocr_attempt;
  llm_log : list llm_call
}.

(** [upload_image], from the saved file on. *)
Definition upload_image (s : session num) (file_path model : string) (agent_mode : bool)
    (target_language : string) : upload_run :=
  let '(bboxes, attempts) := Ocr.process_image_with_ocr readtext file_path in
  let s1 := mk_session (Some file_path) bboxes (current_translated_text s)
                       (current_target_language s) in
  match bboxes with
  | [] => mk_upload_run (NoTextDetected no_text_error no_text_suggestions) s1 attempts []
  | _ :: _ =>
      let original_text := Py.join Py.nl (map text bboxes) in
      let '(translated_lines, calls) :=
        Translate.translate_regions ollama_generate agent_mode model target_language bboxes [] in
      let s2 := mk_session (Some file_path) bboxes translated_lines target_language in
      match text_regions_from translated_lines 0 bboxes with
      | Some regions => mk_upload_run (Uploaded regions) s2 attempts calls
      | None => mk_upload_run UploadFailed s2 attempts calls
      end
  end.

(** [process_document] *)
Definition process_document (s : session num) (user_actions : gmap string string)
  : process_response num :=
  match current_image_path s, current_bboxes s with
  | Some path, _ :: _ =>
      match Layout.create_processed_html image_size path (current_bboxes s)
              (current_translated_text s) user_actions (current_target_language s) with
      | Some doc => Processed doc
      | None => ProcessFailed
      end
  | _, _ => NoImageProcessed
  end.

End Handlers.
End Server.

(** ** The agent framework (JavaScript side) *)

(** JavaScript values as [JSON.parse] and object literals produce them. *)
#[warnings="-register-all"]
Inductive js_value (num : Type) :=
  | JUndefined
  | JNull
  | JBool (b : bool)
  | JNum (n : num)
  | JStr (s : string)
  | JArr (items : list (js_value num))
  | JObj (fields : list (string * js_value num)).
Arguments JUndefined {num}.
Arguments JNull {num}.
Arguments JBool {num} _.
Arguments JNum {num} _.
Arguments JStr {num} _.
Arguments JArr {num} _.
Arguments JObj {num} _.

(** The holes of the five prompt templates; the surrounding text of each
    template is fixed, so a prompt is determined by what fills its holes. *)
Inductive agent_prompt :=
  | ContextPrompt (txt targetLanguageName : string)
  | TranslationPrompt (targetLanguageName context txt : string)
  | ValidationPrompt (originalText translatedText : string)
  | QualityPrompt (originalText translatedText context : string)
  | ConsistencyPrompt (originalText targetLanguageName txt : string).

(** The [status] field of an entry of [agentStates]. *)
Inductive agent_status := Running | Completed | Errored.

(** What [checkConsistency] returns. *)
Record consistency_check (num : Type) := mk_consistency_check {
  isConsistent : js_value num;
  mixedWords : js_value num;
  mixedLanguages : js_value num;
  consistencyScore : js_value num;
  recommendations : js_value num;
  targetLanguage : string
}.
Arguments mk_consistency_check {num} _ _ _ _ _ _.
Arguments isConsistent {num} _.
Arguments mixedWords {num} _.
Arguments mixedLanguages {num} _.
Arguments consistencyScore {num} _.
Arguments recommendations {num} _.
Arguments targetLanguage {num} _.

(** The framework object: the calls it has sent to [/api/ollama] and its
    [agentStates] map. *)
Record framework := mk_framework {
  calls : list agent_prompt;
  agentStates : gmap string agent_status
}.

(** A JavaScript computation either returns or throws. *)
Inductive outcome (A : Type) :=
  | Returned (a : A)
  | Thrown.
Arguments Returned {A} _.
Arguments Thrown {A}.

(** The fallback verdict of the Validation stage in the words of the
    specification. *)
Definition spec_validation_fallback {num} `{Number num} : js_value num :=
  JObj [ ("status", JStr "needs_revision");
         ("score", JNum (num_of_Z 50));
         ("issues", JArr [JStr "parse failure"]);
         ("recommendations", JArr [JStr "manual review"]) ].

Module Agents.
Section Framework.
Context {num : Type} `{Number num}.

(** The reply of [/api/ollama] to the call number [n] of this framework
    object: [Some response] for [data.response], [None] when [fetch], the
    status check or reading the body throws. *)
Variable ollama : nat -> string -> agent_prompt -> option string.

(** [JSON.parse]; [None] when it throws. *)
Variable JSON_parse : string -> option (js_value num).

(** The model chosen on the page. *)
Variable model : string.

Definition J (A : Type) : Type := framework -> outcome A * framework.

Definition ret {A} (a : A) : J A := fun fw => (Returned a, fw).

Definition throw {A} : J A := fun fw => (Thrown, fw).

Definition bind {A B} (m : J A) (k : A -> J B) : J B :=
  fun fw =>
    match m fw with
    | (Returned a, fw') => k a fw'
    | (Thrown, fw') => (Thrown, fw')
    end.

Definition names : list (string * string) :=
  [ ("en", "English"); ("te", "Telugu"); ("kn", "Kannada"); ("ta", "Tamil");
    ("hi", "Hindi"); ("bn", "Bengali"); ("gu", "Gujarati"); ("pa", "Punjabi");
    ("mr", "Marathi"); ("or", "Odia"); ("as", "Assamese"); ("ne", "Nepali");
    ("ur", "Urdu"); ("ml", "Malayalam"); ("si", "Sinhala"); ("my", "Burmese");
    ("th", "Thai"); ("km", "Khmer"); ("lo", "Lao"); ("vi", "Vietnamese");
    ("es", "Spanish"); ("fr", "French"); ("de", "German"); ("ja", "Japanese");
    ("ko", "Korean"); ("zh", "Chinese") ].

(** [names[langCode] || langCode] *)
Definition getLanguageName (langCode : string) : string :=
  dict_get names langCode langCode.

(** [ToBoolean] *)
Definition to_boolean (v : js_value num) : bool :=
  match v with
  | JUndefined => false
  | JNull => false
  | JBool b => b
  | JNum n => num_truthy n
  | JStr s => negb (bool_decide (s = ""))
  | JArr _ => true
  | JObj _ => true
  end.

(** [v || d] *)
Definition js_or (v d : js_value num) : js_value num :=
  if to_boolean v then v else d.

(** [v.key]: a [TypeError] on [null] and [undefined], the field of an
    object, [undefined] for a missing field and on the other values. *)
Definition get (v : js_value num) (key : string) : outcome (js_value num) :=
  match v with
  | JUndefined => Thrown
  | JNull => Thrown
  | JObj fields => Returned (dict_get fields key JUndefined)
  | _ => Returned JUndefined
  end.

(** [v === s] for a string literal [s] *)
Definition is_string (v : js_value num) (s : string) : bool :=
  match v with
  | JStr s' => bool_decide (s' = s)
  | _ => false
  end.

(** [callOllama(prompt)]: the reply, trimmed. *)
Definition callOllama (prompt : agent_prompt) : J string :=
  fun fw =>
    let fw' := mk_framework (calls fw ++ [prompt]) (agentStates fw) in
    match ollama (length (calls fw)) model prompt with
    | Some response => (Returned (Js.trim response), fw')
    | None => (Thrown, fw')
    end.

(** [ContextAgent.analyzeContext] *)
Definition analyzeContext (txt sourceLang targetLang : string) : J string :=
  callOllama (ContextPrompt txt (getLanguageName targetLang)).

(** [TranslationAgent.translate] *)
Definition translate (txt sourceLang targetLang context : string) : J string :=
  callOllama (TranslationPrompt (getLanguageName targetLang) context txt).

Definition validation_fallback : js_value num :=
  JObj [ ("status", JStr "needs_revision");
         ("score", JNum (num_of_Z 50));
         ("issues", JArr [JStr "JSON parsing failed"]);
         ("recommendations", JArr [JStr "Manual review required"]) ].

(** [ValidationAgent.validateTranslation] *)
Definition validateTranslation (originalText translatedText sourceLang targetLang : string)
  : J (js_value num) :=
  bind (callOllama (ValidationPrompt originalText translatedText)) (fun result =>
  match JSON_parse result with
  | Some v => ret v
  | None => ret validation_fallback
  end).

(** [QualityAgent.improveTranslation] *)
Definition improveTranslation (originalText translatedText sourceLang targetLang context : string)
  : J string :=
  callOllama (QualityPrompt originalText translatedText context).

Definition consistency_fallback (result targetLanguageName : string) : consistency_check num :=
  mk_consistency_check
    (JBool (negb (Js.includes "inconsistent" (Js.toLowerCase result))))
    (JArr [])
    (JArr [])
    (JNum (num_of_Z 50))
    (JArr [JStr "Manual review recommended"])
    targetLanguageName.

(** The [try] block of [checkConsistency]: [None] when it throws, either
    in [JSON.parse] or on reading a field of [null]. *)
Definition consistency_parsed (result targetLanguageName : string)
  : option (consistency_check num) :=
  match JSON_parse result with
  | None => None
  | Some analysis =>
      match get analysis "isConsistent", get analysis "mixedWords",
            get analysis "mixedLanguages", get analysis "consistencyScore",
            get analysis "recommendations" with
      | Returned c, Returned w, Returned l, Returned s, Returned r =>
          Some (mk_consistency_check c (js_or w (JArr [])) (js_or l (JArr []))
                  (js_or s (JNum (num_of_Z 0))) (js_or r (JArr [])) targetLanguageName)
      | _, _, _, _, _ => None
      end
  end.

(** [LanguageConsistencyAgent.checkConsistency] *)
Definition checkConsistency (txt targetLang originalText : string)
  : J (consistency_check num) :=
  let targetLanguageName := getLanguageName targetLang in
  bind (callOllama (ConsistencyPrompt originalText targetLanguageName txt)) (fun result =>
  match consistency_parsed result targetLanguageName with
  | Some verdict => ret verdict
  | None => ret (consistency_fallback result targetLanguageName)
  end).

(** [executeAgent(agentName, inputData)]: [run] is the method the
    [switch] selects for [agentName], applied to the fields of
    [inputData]. *)
Definition executeAgent {A} (agentName : string) (run : J A) : J A :=
  fun fw =>
    let fw1 := mk_framework (calls fw) (<[agentName := Running]> (agentStates fw)) in
    match run fw1 with
    | (Returned result, fw2) =>
        (Returned result,
         mk_framework (calls fw2) (<[agentName := Completed]> (agentStates fw2)))
    | (Thrown, fw2) =>
        (Thrown, mk_framework (calls fw2) (<[agentName := Errored]> (agentStates fw2)))
    end.

(** [this.agentStates.clear()] *)
Definition clear_states : J unit :=
  fun fw => (Returned tt, mk_framework (calls fw) ∅).

(** The test that guards step 5. *)
Definition needs_improvement (status : js_value num) (check : consistency_check num) : bool :=
  is_string status "needs_revision" || is_string status "invalid"
  || negb (to_boolean (isConsistent check)).

(** Step 5 of the pipeline and what follows it: the improvement when it
    is needed, the final validation when the text has changed, and the
    value returned. *)
Definition quality_branch (originalText sourceLang targetLang context translatedText : string)
    (validation : js_value num) (consistencyCheck : consistency_check num) : J string :=
  bind (fun fw => (get validation "status", fw)) (fun status =>
  bind (if needs_improvement status consistencyCheck
        then executeAgent "qualityAssurance"
               (improveTranslation originalText translatedText sourceLang targetLang context)
        else ret translatedText) (fun finalText =>
  bind (if decide (finalText = translatedText)
        then ret tt
        else bind (executeAgent "validator"
                     (validateTranslation originalText finalText sourceLang targetLang))
                  (fun _ => ret tt)) (fun _ =>
  ret (if decide (finalText = "") then translatedText else finalText)))).

(** [AgentFramework.executeTranslationPipeline] *)
Definition executeTranslationPipeline (originalText sourceLang targetLang : string)
  : J string :=
  bind clear_states (fun _ =>
  bind (executeAgent "contextAnalyzer"
          (analyzeContext originalText sourceLang targetLang)) (fun context =>
  bind (executeAgent "translator"
          (translate originalText sourceLang targetLang context)) (fun translatedText =>
  bind (executeAgent "validator"
          (validateTranslation originalText translatedText sourceLang targetLang))
       (fun validation =>
  bind (executeAgent "languageConsistencyChecker"
          (checkConsistency translatedText targetLang originalText))
       (fun consistencyCheck =>
  quality_branch originalText sourceLang targetLang context translatedText
    validation consistencyCheck))))).

(** The states of the four agents that always run, once they have all
    returned. *)
Definition states_after_checks : gmap string agent_status :=
  <["languageConsistencyChecker" := Completed]>
    (<["languageConsistencyChecker" := Running]>
       (<["validator" := Completed]>
          (<["validator" := Running]>
             (<["translator" := Completed]>
                (<["translator" := Running]>
                   (<["contextAnalyzer" := Completed]>
                      (<["contextAnalyzer" := Running]> ∅))))))).

End Framework.
End Agents.

(** ** The action table of the page (JavaScript side) *)

Module Page.

(** [userActions = {}], as [displayResults] leaves it after an upload. *)
Definition displayResults : gmap string string := ∅.

(** The assignment [userActions[regionId] = action] that opens
    [setRegionAction]; the property key of a region id is its decimal
    form, which is the key [create_processed_html] asks for. *)
Definition setRegionAction (userActions : gmap string string) (regionId : nat)
    (action : string) : gmap string string :=
  <[Py.str regionId := action]> userActions.

End Page.

(** ** The [/api/ollama] endpoint *)

Inductive api_response :=
  | ApiOk (response model : string)
  | ApiNoPrompt
  | ApiUnavailable.

Module Api.
Section Endpoint.
Variable ollama_generate : nat -> string -> string -> option string.

Definition default_model : string := "gemma3-legal-samanantar-pro:latest".

(** [ollama_api]; [data] is the JSON body, [None] when reading it raises
    or gives [None].  [ApiOk] is the 200 answer, [ApiNoPrompt] the 400 and
    [ApiUnavailable] the 503 of the [except] branch. *)
Definition ollama_api (data : option (gmap string string)) : Translate.M api_response :=
  match data with
  | None => Translate.ret ApiUnavailable
  | Some fields =>
      let model := default default_model (fields !! "model") in
      let prompt := default "" (fields !! "prompt") in
      if decide (prompt = "") then Translate.ret ApiNoPrompt
      else
        Translate.bind (Translate.generate ollama_generate model prompt) (fun reply =>
        match reply with
        | Some translated_text => Translate.ret (ApiOk translated_text model)
        | None => Translate.ret ApiUnavailable
        end)
  end.

End Endpoint.
End Api.

(** ** The agent registry and what a run may leave behind *)

Record agent_config := mk_agent_config {
  cfg_role : string;
  cfg_priority : nat;
  cfg_required : bool;
  cfg_timeout : Z
}.

Module Registry.

(** [initializeAgents], in registration order. *)
Definition initializeAgents : list (string * agent_config) :=
  [ ("contextAnalyzer", mk_agent_config "context_analysis" 1 true 30000%Z);
    ("translator", mk_agent_config "translation" 2 true 45000%Z);
    ("validator", mk_agent_config "validation" 3 true 30000%Z);
    ("qualityAssurance", mk_agent_config "quality_improvement" 4 false 45000%Z);
    ("languageConsistencyChecker", mk_agent_config "language_consistency" 5 true 20000%Z) ].

(** [this.agents.get(agentName)] *)
Fixpoint agents_get (agents : list (string * agent_config)) (agentName : string)
  : option agent_config :=
  match agents with
  | [] => None
  | (k, c) :: rest => if decide (k = agentName) then Some c else agents_get rest agentName
  end.

Definition is_quality_prompt (p : agent_prompt) : bool :=
  match p with
  | QualityPrompt _ _ _ => true
  | _ => false
  end.

(** The number of improvement prompts among some calls. *)
Definition quality_count (sent : list agent_prompt) : nat :=
  length (filter (fun p => is_quality_prompt p = true) sent).

(** A computation that only adds calls to the log: at most [n] of them,
    at most [q] of which are improvement prompts. *)
Definition sends_at_most {A} (n q : nat) (m : framework -> outcome A * framework) : Prop :=
  forall fw, exists sent,
    calls (m fw).2 = calls fw ++ sent /\ length sent <= n /\ quality_count sent <= q.

(** Every recorded agent is a registered one and is not left running. *)
Definition settled (states : gmap string agent_status) : Prop :=
  forall agentName st,
    states !! agentName = Some st ->
    is_Some (agents_get initializeAgents agentName) /\ st <> Running.

End Registry.

(** ** Sample data for the examples *)

Module Samples.

(** A quad inside a 11 x 20 image and a square one in a 100 x 100 image. *)
Definition quad_a {num} `{Number num} : list (num * num) :=
  [ (num_of_Z 2, num_of_Z 5); (num_of_Z 11, num_of_Z 5);
    (num_of_Z 11, num_of_Z 15); (num_of_Z 2, num_of_Z 15) ].

Definition quad_b {num} `{Number num} : list (num * num) :=
  [ (num_of_Z 10, num_of_Z 20); (num_of_Z 60, num_of_Z 20);
    (num_of_Z 60, num_of_Z 70); (num_of_Z 10, num_of_Z 70) ].

Definition region_a {num} `{Number num} : region num :=
  mk_region quad_a "Government of India" (num_lit 9 10).

Definition region_b {num} `{Number num} : region num :=
  mk_region quad_b "Hello" (num_lit 9 10).

(** An OCR engine that finds two paragraphs at the first attempt. *)
Definition two_paragraphs {num} `{Number num}
  : string -> list string -> bool -> option (list (ocr_result num)) :=
  fun _ _ _ => Some [ResPair quad_a "Government of India"; ResPair quad_b "Hello"].

(** An OCR engine that raises for English alone, finds nothing for
    English with Hindi and finds one paragraph for English with Telugu. *)
Definition third_entry_only {num} `{Number num}
  : string -> list string -> bool -> option (list (ocr_result num)) :=
  fun _ langs _ =>
    if decide (langs = ["en"]) then None
    else if decide (langs = ["en"; "te"]) then Some [ResShort; ResPair quad_b "Hello"]
    else Some [].

(** A translation service that is down, and one that always answers. *)
Definition service_down : nat -> string -> string -> option string :=
  fun _ _ _ => None.

Definition service_up : nat -> string -> string -> option string :=
  fun _ _ _ => Some "anuvaadam".

(** The user keeps the first region as translated text and blanks the
    second one. *)
Definition translate_then_whiteout : gmap string string :=
  {[ "0" := "translate"; "1" := "whiteout" ]}.

(** The user asks for the translation of both regions. *)
Definition translate_both : gmap string string :=
  {[ "0" := "translate"; "1" := "translate" ]}.

(** Every sample scan is read as a 100 x 100 image. *)
Definition square_image : string -> option (Z * Z) := fun _ => Some (100, 100)%Z.

(** The session after a two-region upload whose second translation is
    missing. *)
Definition short_translations : list string := ["  bharata prabhutvam  "].

(** Replies of the model: two well-formed verdicts, and free text. *)
Definition dq : string := String (ascii_of_nat 34) EmptyString.

Definition reply_valid : string :=
  "{" ++ dq ++ "status" ++ dq ++ ":" ++ dq ++ "valid" ++ dq ++ "}".

Definition reply_consistent : string :=
  "{" ++ dq ++ "isConsistent" ++ dq ++ ":true}".

(** [JSON.parse] on the replies used in the examples: the two verdicts
    above and [null] parse, the free-text replies do not. *)
Definition parse_sample : string -> option (js_value Q) :=
  fun reply =>
    if decide (reply = reply_valid) then Some (JObj [("status", JStr "valid")])
    else if decide (reply = reply_consistent) then Some (JObj [("isConsistent", JBool true)])
    else if decide (reply = "null") then Some JNull
    else None.

(** A model that validates and finds the translation consistent. *)
Definition model_approves : nat -> string -> agent_prompt -> option string :=
  fun _ _ prompt =>
    match prompt with
    | ContextPrompt _ _ => Some "A tender notice, India, procurement, formal."
    | TranslationPrompt _ _ _ => Some " anuvaadam "
    | ValidationPrompt _ _ => Some reply_valid
    | QualityPrompt _ _ _ => Some "merugaina anuvaadam"
    | ConsistencyPrompt _ _ _ => Some reply_consistent
    end.

(** A model that answers the two structured stages in free text. *)
Definition model_rambles : nat -> string -> agent_prompt -> option string :=
  fun _ _ prompt =>
    match prompt with
    | ContextPrompt _ _ => Some "A tender notice, India, procurement, formal."
    | TranslationPrompt _ _ _ => Some " anuvaadam "
    | ValidationPrompt _ _ => Some "The translation looks fine to me."
    | QualityPrompt _ _ _ => Some "merugaina anuvaadam"
    | ConsistencyPrompt _ _ _ => Some "The wording is Inconsistent in two places."
    end.

Definition fresh_framework : framework := mk_framework [] ∅.

(** A model whose improvement is the empty text, and one that is down
    when the improvement is asked for. *)
Definition model_improves_to_nothing : nat -> string -> agent_prompt -> option string :=
  fun n m prompt =>
    match prompt with
    | QualityPrompt _ _ _ => Some "   "
    | _ => model_rambles n m prompt
    end.

Definition model_down_at_improvement : nat -> string -> agent_prompt -> option string :=
  fun n m prompt =>
    match prompt with
    | QualityPrompt _ _ _ => None
    | _ => model_rambles n m prompt
    end.

(** A model that is down from its third call on. *)
Definition model_down_at_validation : nat -> string -> agent_prompt -> option string :=
  fun n m prompt => if (n <? 2)%nat then model_rambles n m prompt else None.

(** A model whose validation verdict is the JSON [null], and one whose
    consistency verdict lacks the [isConsistent] field. *)
Definition model_validates_null : nat -> string -> agent_prompt -> option string :=
  fun n m prompt =>
    match prompt with
    | ValidationPrompt _ _ => Some "null"
    | _ => model_approves n m prompt
    end.

(** A model whose consistency verdict is an object of another shape. *)
Definition model_wrong_shape : nat -> string -> agent_prompt -> option string :=
  fun n m prompt =>
    match prompt with
    | ConsistencyPrompt _ _ _ => Some reply_valid
    | _ => model_approves n m prompt
    end.

(** A body for [/api/ollama] with a prompt and no model name. *)
Definition api_body : gmap string string := {[ "prompt" := "Translate: Hello" ]}.

(** An OCR engine that finds nothing, and one whose only block has no
    corner points. *)
Definition blank_page {num} `{Number num}
  : string -> list string -> bool -> option (list (ocr_result num)) :=
  fun _ _ _ => Some [].

Definition cornerless {num} `{Number num}
  : string -> list string -> bool -> option (list (ocr_result num)) :=
  fun _ _ _ => Some [ResPair [] "Hello"].

(** A service that answers the first call only, with padding around the
    answer. *)
Definition first_call_only : nat -> string -> string -> option string :=
  fun n _ _ => match n with O => Some "  bharata prabhutvam  " | S _ => None end.

Definition agentic_upload : Server.upload_run (num := Q) :=
  Server.upload_image two_paragraphs service_up Server.initial_session
    "scan.png" "gemma3:4b" true "te".

End Samples.

(** * Properties *)

(** ** Region extractor *)

Section ExtractorFacts.
Context {num : Type} `{Number num}.
Variable readtext : string -> list string -> bool -> option (list (ocr_result num)).

Lemma collect_app (results : list (ocr_result num)) (bboxes : list (region num)) :
  Ocr.collect results bboxes = bboxes ++ Ocr.collect results [].
Proof.
  revert bboxes. induction results as [|res rest IH]; intros bboxes; simpl.
  - by rewrite app_nil_r.
  - destruct res; simpl; [apply IH | |];
      rewrite IH, (IH [_]), <- app_assoc; reflexivity.
Qed.

(** An attempt that raises or returns no well-formed entry leaves the
    loop where it was and makes it go on with the rest of the ladder. *)
Lemma ladder_loop_advance image c rest log :
  Ocr.attempt_regions readtext image (c, true) = [] ->
  Ocr.ladder_loop readtext image (c :: rest) [] log =
  Ocr.ladder_loop readtext image rest [] (log ++ [(c, true)]).
Proof.
  unfold Ocr.attempt_regions. simpl.
  destruct (readtext image c true) as [results|]; [|done].
  intros ->. reflexivity.
Qed.

(** An attempt that finds something ends the loop at once. *)
Lemma ladder_loop_stop image c rest log :
  Ocr.attempt_regions readtext image (c, true) <> [] ->
  Ocr.ladder_loop readtext image (c :: rest) [] log =
  (Ocr.attempt_regions readtext image (c, true), log ++ [(c, true)]).
Proof.
  unfold Ocr.attempt_regions. simpl.
  destruct (readtext image c true) as [results|]; [|done].
  destruct (Ocr.collect results []); [done | reflexivity].
Qed.

Lemma ladder_loop_cases image combos log :
  (exists pre e post,
      combos = pre ++ e :: post
      /\ Forall (fun c => Ocr.attempt_regions readtext image (c, true) = []) pre
      /\ Ocr.attempt_regions readtext image (e, true) <> []
      /\ Ocr.ladder_loop readtext image combos [] log =
         (Ocr.attempt_regions readtext image (e, true),
          log ++ map (fun c => (c, true)) (pre ++ [e])))
  \/ (Forall (fun c => Ocr.attempt_regions readtext image (c, true) = []) combos
      /\ Ocr.ladder_loop readtext image combos [] log =
         ([], log ++ map (fun c => (c, true)) combos)).
Proof.
  revert log. induction combos as [|c rest IH]; intros log.
  - right. split; [constructor |]. simpl. by rewrite app_nil_r.
  - destruct (decide (Ocr.attempt_regions readtext image (c, true) = [])) as [Hnone|Hsome].
    + rewrite (ladder_loop_advance _ _ _ _ Hnone).
      destruct (IH (log ++ [(c, true)])) as [(pre & e & post & -> & Hpre & He & Hrun)|[Hall Hrun]].
      * left. exists (c :: pre), e, post. repeat split; [by constructor | done |].
        rewrite Hrun. simpl. by rewrite <- app_assoc.
      * right. split; [by constructor |]. rewrite Hrun. simpl. by rewrite <- app_assoc.
    + left. exists [], c, rest. repeat split; [constructor | done |].
      by rewrite (ladder_loop_stop _ _ _ _ Hsome).
Qed.

End ExtractorFacts.

(** C2.  For every image and every ladder of language-hint sets, the
    extractor tries the entries in order with paragraph grouping; an
    entry that raises or yields no region makes it go on to the next one;
    it stops at the first entry that yields a region, returns exactly that
    entry's regions and makes no later attempt.  Only when every entry
    yields nothing does it make one more attempt, with the hint [['en']]
    (the first, narrowest entry of the built-in ladder) and without
    paragraph grouping. *)
Theorem ladder_in_order_first_success_wins :
  forall (num : Type) (N : Number num)
         (readtext : string -> list string -> bool -> option (list (ocr_result num)))
         (image : string) (ladder : list (list string)),
    head Ocr.language_combinations = Some ["en"]
    /\ ((exists pre e post,
            ladder = pre ++ e :: post
            /\ Forall (fun c => Ocr.attempt_regions readtext image (c, true) = []) pre
            /\ Ocr.attempt_regions readtext image (e, true) <> []
            /\ Ocr.process_image_with_ocr_on readtext ladder image =
               (Ocr.attempt_regions readtext image (e, true),
                map (fun c => (c, true)) (pre ++ [e])))
        \/ (Forall (fun c => Ocr.attempt_regions readtext image (c, true) = []) ladder
            /\ Ocr.process_image_with_ocr_on readtext ladder image =
               (Ocr.attempt_regions readtext image (["en"], false),
                map (fun c => (c, true)) ladder ++ [(["en"], false)]))).
Proof.
  intros num N readtext image ladder. split; [reflexivity |].
  unfold Ocr.process_image_with_ocr_on.
  destruct (ladder_loop_cases readtext image ladder [])
    as [(pre & e & post & -> & Hpre & He & Hrun)|[Hall Hrun]].
  - left. exists pre, e, post. repeat split; [done | done |].
    rewrite Hrun. simpl.
    destruct (Ocr.attempt_regions readtext image (e, true)); [done | reflexivity].
  - right. split; [done |]. rewrite Hrun. simpl.
    unfold Ocr.attempt_regions. simpl.
    destruct (readtext image ["en"] false); reflexivity.
Qed.

(** ** Translation orchestrator *)

(** Replacing a phrase that does not occur changes nothing. *)
Lemma replace_absent (old new s : string) :
  Py.contains old s = false -> Py.replace old new s = s.
Proof.
  unfold Py.replace. induction s as [|c s IH]; [reflexivity |].
  intros Hc.
  change (String.prefix old (String c s) || Py.contains old s = false) in Hc.
  apply orb_false_iff in Hc as [Hp Hrest].
  change (Py.replace_from old new 0 (String c s))
    with (if String.prefix old (String c s)
          then (new ++ Py.replace_from old new (String.length old - 1) s)%string
          else String c (Py.replace_from old new 0 s)).
  rewrite Hp. by rewrite (IH Hrest).
Qed.

Lemma apply_translations_absent (translations : list (string * string)) (txt : string) :
  Forall (fun entry => Py.contains entry.1 txt = false) translations ->
  apply_translations translations txt = txt.
Proof.
  unfold apply_translations. induction 1 as [|entry rest Hentry _ IH]; [reflexivity |].
  simpl. by rewrite (replace_absent _ _ _ Hentry).
Qed.

Section OrchestratorFacts.
Variable ollama_generate : nat -> string -> string -> option string.

Lemma translate_text_run txt model target_language log :
  Translate.translate_text ollama_generate txt model target_language log =
  (Translate.region_result ollama_generate false model target_language (length log) txt,
   log ++ [(model, region_prompt false target_language txt)]).
Proof.
  unfold Translate.translate_text, Translate.bind, Translate.generate,
    Translate.region_result, region_prompt.
  destruct (ollama_generate _ _ _); reflexivity.
Qed.

Lemma translate_text_with_agents_run txt model target_language log :
  Translate.translate_text_with_agents ollama_generate txt model target_language log =
  (Translate.region_result ollama_generate true model target_language (length log) txt,
   log ++ [(model, region_prompt true target_language txt)]).
Proof.
  unfold Translate.translate_text_with_agents, Translate.bind, Translate.generate,
    Translate.region_result, region_prompt.
  destruct (ollama_generate _ _ _); reflexivity.
Qed.

(** The loop over the regions issues one call per region, in region
    order, and the result of a region is the result of its own call. *)
Lemma translate_regions_run {num} agent_mode model target_language
    (bboxes : list (region num)) log :
  Translate.translate_regions ollama_generate agent_mode model target_language bboxes log =
  (imap (fun i b => Translate.region_result ollama_generate agent_mode model
                      target_language (length log + i) (text b)) bboxes,
   log ++ map (fun b => (model, region_prompt agent_mode target_language (text b))) bboxes).
Proof.
  revert log. induction bboxes as [|b rest IH]; intros log.
  - simpl. by rewrite app_nil_r.
  - cbn [Translate.translate_regions]. unfold Translate.bind at 1.
    assert (Hstep :
      (if agent_mode
       then Translate.translate_text_with_agents ollama_generate (text b) model target_language
       else Translate.translate_text ollama_generate (text b) model target_language) log =
      (Translate.region_result ollama_generate agent_mode model target_language
         (length log) (text b),
       log ++ [(model, region_prompt agent_mode target_language (text b))])).
    { destruct agent_mode;
        [apply translate_text_with_agents_run | apply translate_text_run]. }
    rewrite Hstep. unfold Translate.bind at 1. rewrite IH. unfold Translate.ret.
    simpl. rewrite <- app_assoc, Nat.add_0_r. simpl. f_equal. f_equal.
    apply imap_ext. intros i x _. simpl. rewrite length_app. simpl.
    f_equal. lia.
Qed.

End OrchestratorFacts.



(** The table is applied phrase by phrase when the service is down. *)
Example fallback_known_phrase :
  (Translate.translate_regions Samples.service_down false "gemma3:4b" "te"
     [Samples.region_a (num := Q); Samples.region_b] []).1 !! 0
  = Some "భారత ప్రభుత్వం".
Proof. vm_compute. reflexivity. Qed.



(** ** Layout reconstructor *)

Section ReconstructorFacts.
Context {num : Type} `{Number num}.

Local Arguments Layout.extent : simpl never.
Local Arguments Layout.percent : simpl never.
Local Arguments Layout.font_size_of : simpl never.
Local Arguments Layout.text_shown : simpl never.

(** A blanked region: the body appends nothing and does not raise. *)
Lemma overlay_for_whiteout W Ht lines (actions : gmap string string) i (b : region num) :
  actions !! Py.str i = Some "whiteout" ->
  Layout.overlay_for W Ht lines actions i b = Some None.
Proof. intros Ha. unfold Layout.overlay_for. rewrite Ha. reflexivity. Qed.

(** What the body appends, read back from its result. *)
Lemma overlay_for_inv W Ht lines (actions : gmap string string) i (b : region num) o :
  Layout.overlay_for W Ht lines actions i b = Some (Some o) ->
  let action := default "preserve" (actions !! Py.str i) in
  action <> "whiteout"
  /\ exists x_min x_max y_min y_max left_pct top_pct width_pct height_pct font_size,
       Layout.extent (bbox b) = Some (x_min, x_max, y_min, y_max)
       /\ Layout.percent x_min W = Some left_pct
       /\ Layout.percent y_min Ht = Some top_pct
       /\ Layout.percent (num_sub x_max x_min) W = Some width_pct
       /\ Layout.percent (num_sub y_max y_min) Ht = Some height_pct
       /\ Layout.font_size_of height_pct = Some font_size
       /\ o = mk_overlay (Layout.text_shown lines action i b) left_pct top_pct
                         width_pct height_pct font_size action.
Proof.
  intros Ho action. unfold Layout.overlay_for in Ho. fold action in Ho.
  destruct (decide (action = "whiteout")) as [|Hne]; [done |].
  split; [done |].
  destruct (Layout.extent (bbox b)) as [[[[x_min x_max] y_min] y_max]|] eqn:He; [|done].
  simpl in Ho.
  destruct (Layout.percent x_min W) as [left_pct|] eqn:Hl; [|done]. simpl in Ho.
  destruct (Layout.percent y_min Ht) as [top_pct|] eqn:Ht'; [|done]. simpl in Ho.
  destruct (Layout.percent (num_sub x_max x_min) W) as [width_pct|] eqn:Hw; [|done].
  simpl in Ho.
  destruct (Layout.percent (num_sub y_max y_min) Ht) as [height_pct|] eqn:Hh; [|done].
  simpl in Ho.
  destruct (Layout.font_size_of height_pct) as [font_size|] eqn:Hf; [|done]. simpl in Ho.
  exists x_min, x_max, y_min, y_max, left_pct, top_pct, width_pct, height_pct, font_size.
  simplify_eq. repeat split; assumption || reflexivity.
Qed.

Lemma overlay_for_action W Ht lines (actions : gmap string string) i (b : region num) o :
  Layout.overlay_for W Ht lines actions i b = Some (Some o) ->
  ov_action o = default "preserve" (actions !! Py.str i).
Proof.
  intros Ho.
  destruct (overlay_for_inv _ _ _ _ _ _ _ Ho)
    as (_ & ? & ? & ? & ? & ? & ? & ? & ? & ? & _ & _ & _ & _ & _ & _ & ->).
  reflexivity.
Qed.

(** The body never appends without having passed the whiteout test. *)
Lemma overlay_for_skip W Ht lines (actions : gmap string string) i (b : region num) :
  Layout.overlay_for W Ht lines actions i b = Some None ->
  default "preserve" (actions !! Py.str i) = "whiteout".
Proof.
  unfold Layout.overlay_for.
  destruct (decide (default "preserve" (actions !! Py.str i) = "whiteout")); [done |].
  destruct (Layout.extent (bbox b)) as [[[[x_min x_max] y_min] y_max]|]; [|done].
  simpl.
  destruct (Layout.percent x_min W); [|done]. simpl.
  destruct (Layout.percent y_min Ht); [|done]. simpl.
  destruct (Layout.percent (num_sub x_max x_min) W); [|done]. simpl.
  destruct (Layout.percent (num_sub y_max y_min) Ht) as [height_pct|]; [|done]. simpl.
  destruct (Layout.font_size_of height_pct); done.
Qed.

Lemma font_size_of_range (height_pct : num) (font_size : Z) :
  Layout.font_size_of height_pct = Some font_size -> (8 <= font_size <= 16)%Z.
Proof.
  unfold Layout.font_size_of.
  destruct (num_int (num_mul height_pct (num_lit 8 10))) as [n|]; [|done].
  simpl. intros [= <-]. lia.
Qed.

Lemma overlays_from_emitted W Ht lines (actions : gmap string string) i
    (bboxes : list (region num)) ovs :
  Layout.overlays_from W Ht lines actions i bboxes = Some ovs ->
  Forall2 (fun o ib => Layout.overlay_for W Ht lines actions ib.1 ib.2 = Some (Some o))
          ovs
          (filter (fun ib => default "preserve" (actions !! Py.str ib.1) <> "whiteout")
                  (Py.enumerate_from i bboxes)).
Proof.
  revert i ovs. induction bboxes as [|b rest IH]; intros i ovs Hrun.
  - simpl in Hrun. simplify_eq. constructor.
  - cbn [Layout.overlays_from] in Hrun.
    destruct (Layout.overlay_for W Ht lines actions i b) as [o|] eqn:Hbody; [|done].
    simpl in Hrun.
    destruct (Layout.overlays_from W Ht lines actions (S i) rest) as [os|] eqn:Hrest; [|done].
    simpl in Hrun. simplify_eq. specialize (IH (S i) os Hrest).
    cbn [Py.enumerate_from]. rewrite filter_cons. cbn [fst snd].
    destruct o as [ov|].
    + destruct (overlay_for_inv _ _ _ _ _ _ _ Hbody) as [Hne _].
      rewrite decide_True by done. by constructor.
    + apply overlay_for_skip in Hbody.
      rewrite decide_False by (intros Hc; by apply Hc). done.
Qed.

(** A property of everything the body appends holds of every entry. *)
Lemma emitted_Forall W Ht lines (actions : gmap string string)
    (P : overlay num -> Prop) ovs (ibs : list (nat * region num)) :
  (forall i b o, Layout.overlay_for W Ht lines actions i b = Some (Some o) -> P o) ->
  Forall2 (fun o ib => Layout.overlay_for W Ht lines actions ib.1 ib.2 = Some (Some o))
          ovs ibs ->
  Forall P ovs.
Proof.
  intros HP Hall. induction Hall as [|o ib ovs' ibs' Ho _ IH]; constructor; [|exact IH].
  exact (HP _ _ _ Ho).
Qed.

Lemma create_processed_html_inv image_size image_path (bboxes : list (region num))
    lines (actions : gmap string string) lang doc :
  Layout.create_processed_html image_size image_path bboxes lines actions lang = Some doc ->
  exists img_width img_height,
    image_size image_path = Some (img_width, img_height)
    /\ Layout.overlays_from img_width img_height lines actions 0 bboxes
       = Some (text_overlays doc).
Proof.
  unfold Layout.create_processed_html. intros Hdoc.
  destruct (image_size image_path) as [[img_width img_height]|]; [|done].
  simpl in Hdoc.
  destruct (Layout.overlays_from img_width img_height lines actions 0 bboxes)
    as [ovs|] eqn:Hovs; [|done].
  simpl in Hdoc. simplify_eq. by exists img_width, img_height.
Qed.

(** A region the loop has passed and not skipped has its entry in the list. *)
Lemma overlays_from_elem W Ht lines (actions : gmap string string) i
    (bboxes : list (region num)) ovs k b o :
  Layout.overlays_from W Ht lines actions i bboxes = Some ovs ->
  bboxes !! k = Some b ->
  Layout.overlay_for W Ht lines actions (i + k) b = Some (Some o) ->
  o ∈ ovs.
Proof.
  revert i ovs k. induction bboxes as [|b0 rest IH]; intros i ovs k Hrun Hk Ho; [done |].
  cbn [Layout.overlays_from] in Hrun.
  destruct (Layout.overlay_for W Ht lines actions i b0) as [o0|] eqn:Hbody; [|done].
  simpl in Hrun.
  destruct (Layout.overlays_from W Ht lines actions (S i) rest) as [os|] eqn:Hrest; [|done].
  simpl in Hrun. simplify_eq.
  destruct k as [|k].
  - simpl in Hk. simplify_eq. rewrite Nat.add_0_r in Ho. rewrite Ho in Hbody.
    simplify_eq. apply list_elem_of_here.
  - simpl in Hk. replace (i + S k) with (S i + k) in Ho by lia.
    specialize (IH _ _ _ Hrest Hk Ho).
    destruct o0; [by apply list_elem_of_further | done].
Qed.

(** The loop returns only if its body returned at every region. *)
Lemma overlays_from_body W Ht lines (actions : gmap string string) i
    (bboxes : list (region num)) ovs k b :
  Layout.overlays_from W Ht lines actions i bboxes = Some ovs ->
  bboxes !! k = Some b ->
  is_Some (Layout.overlay_for W Ht lines actions (i + k) b).
Proof.
  revert i ovs k. induction bboxes as [|b0 rest IH]; intros i ovs k Hrun Hk; [done |].
  cbn [Layout.overlays_from] in Hrun.
  destruct (Layout.overlay_for W Ht lines actions i b0) as [o0|] eqn:Hbody; [|done].
  simpl in Hrun.
  destruct (Layout.overlays_from W Ht lines actions (S i) rest) as [os|] eqn:Hrest; [|done].
  destruct k as [|k].
  - simpl in Hk. simplify_eq. rewrite Nat.add_0_r. by rewrite Hbody.
  - simpl in Hk. replace (i + S k) with (S i + k) by lia. by eapply IH.
Qed.

(** A [translate] whose line is missing is laid out as [preserve] is. *)
Lemma overlay_for_missing_line W Ht lines (actions : gmap string string) i (b : region num) :
  length lines <= i ->
  actions !! Py.str i = Some "translate" ->
  Layout.overlay_for W Ht lines actions i b
  = option_map (option_map (with_action "translate"))
      (Layout.overlay_for W Ht lines (<[Py.str i := "preserve"]> actions) i b).
Proof.
  intros Hlen Ha. unfold Layout.overlay_for.
  rewrite Ha, lookup_insert_eq. cbn [default].
  rewrite decide_False by done. rewrite (decide_False (P := "preserve" = "whiteout")) by done.
  unfold Layout.text_shown. rewrite (lookup_ge_None_2 lines i Hlen).
  rewrite decide_True by done. rewrite (decide_False (P := "preserve" = "translate")) by done.
  destruct (Layout.extent (bbox b)) as [[[[x_min x_max] y_min] y_max]|]; [|done]. simpl.
  destruct (Layout.percent x_min W); [|done]. simpl.
  destruct (Layout.percent y_min Ht); [|done]. simpl.
  destruct (Layout.percent (num_sub x_max x_min) W); [|done]. simpl.
  destruct (Layout.percent (num_sub y_max y_min) Ht) as [height_pct|]; [|done]. simpl.
  destruct (Layout.font_size_of height_pct); done.
Qed.

End ReconstructorFacts.

(** C5.  Whatever the regions, the actions and the translated lines, the
    overlay list that [create_processed_html] builds has no entry for a
    region whose action is [whiteout]: the loop body appends nothing for
    such a region, the entries of the list are, in order, what the body
    appends for the regions whose action is not [whiteout], and no entry
    carries the action [whiteout]. *)
Theorem whiteout_regions_emit_nothing :
  forall (num : Type) (N : Number num) (image_size : string -> option (Z * Z))
         (image_path : string) (bboxes : list (region num)) (translated_lines : list string)
         (user_actions : gmap string string) (target_language : string)
         (doc : processed_html num),
    Layout.create_processed_html image_size image_path bboxes translated_lines
      user_actions target_language = Some doc ->
    exists img_width img_height,
      image_size image_path = Some (img_width, img_height)
      /\ (forall i b, user_actions !! Py.str i = Some "whiteout" ->
            Layout.overlay_for img_width img_height translated_lines user_actions i b
            = Some None)
      /\ Forall2 (fun o ib =>
                    Layout.overlay_for img_width img_height translated_lines user_actions
                      ib.1 ib.2 = Some (Some o))
                 (text_overlays doc)
                 (filter (fun ib => default "preserve" (user_actions !! Py.str ib.1)
                                    <> "whiteout")
                         (Py.enumerate bboxes))
      /\ Forall (fun o => ov_action o <> "whiteout") (text_overlays doc).
Proof.
  intros num N image_size image_path bboxes translated_lines user_actions target_language
    doc Hdoc.
  destruct (create_processed_html_inv _ _ _ _ _ _ _ Hdoc)
    as (img_width & img_height & Hsize & Hovs).
  exists img_width, img_height. split; [exact Hsize |].
  split; [intros i b; apply overlay_for_whiteout |].
  pose proof (overlays_from_emitted _ _ _ _ _ _ _ Hovs) as Hall.
  split; [exact Hall |].
  apply (emitted_Forall _ _ _ _ _ _ _ (fun i b o Ho =>
           eq_ind_r (fun a => a <> "whiteout")
                    (proj1 (overlay_for_inv _ _ _ _ _ _ _ Ho))
                    (overlay_for_action _ _ _ _ _ _ _ Ho)) Hall).
Qed.

Lemma whiteout_regions_emit_nothing_witness :
  exists doc : processed_html Q,
    Layout.create_processed_html Samples.square_image "scan.png"
      [Samples.region_a; Samples.region_b] ["bharata prabhutvam"; "namaste"]
      Samples.translate_then_whiteout "te" = Some doc
    /\ map ov_text (text_overlays doc) = ["bharata prabhutvam"]
    /\ Forall (fun o => ov_action o <> "whiteout") (text_overlays doc).
Proof.
  destruct (Layout.create_processed_html Samples.square_image "scan.png"
              [Samples.region_a; Samples.region_b] ["bharata prabhutvam"; "namaste"]
              Samples.translate_then_whiteout "te") as [doc|] eqn:Hdoc;
    [| vm_compute in Hdoc; discriminate].
  exists doc. split; [reflexivity |].
  destruct (whiteout_regions_emit_nothing Q _ _ _ _ _ _ _ doc Hdoc)
    as (? & ? & _ & _ & _ & Hall).
  split; [| exact Hall].
  vm_compute in Hdoc. injection Hdoc as <-. reflexivity.
Defined.

(** C8.  The font size of an overlay is [max(8, min(16, n))] for the
    integer [n] that [int(height_pct * 0.8)] yields, so it lies between 8
    and 16 whatever the height of the rectangle: for the value computed
    from any height, for what the loop body appends and for every entry of
    the list of a processed document.  In exact arithmetic a font size is
    computed for every height. *)
Theorem font_size_clamped :
  (forall height_pct : Q, exists font_size,
      Layout.font_size_of height_pct = Some font_size /\ (8 <= font_size <= 16)%Z)
  /\ forall (num : Type) (N : Number num),
      (forall (height_pct : num) (font_size : Z),
          Layout.font_size_of height_pct = Some font_size -> (8 <= font_size <= 16)%Z)
      /\ (forall img_width img_height translated_lines (user_actions : gmap string string)
                 i (b : region num) o,
             Layout.overlay_for img_width img_height translated_lines user_actions i b
             = Some (Some o) ->
             (8 <= ov_font_size o <= 16)%Z)
      /\ (forall image_size image_path (bboxes : list (region num)) translated_lines
                 (user_actions : gmap string string) target_language doc,
             Layout.create_processed_html image_size image_path bboxes translated_lines
               user_actions target_language = Some doc ->
             Forall (fun o => (8 <= ov_font_size o <= 16)%Z) (text_overlays doc)).
Proof.
  split.
  { intros height_pct. eexists. split; [reflexivity | lia]. }
  intros num N.
  assert (Hbody : forall img_width img_height translated_lines
                         (user_actions : gmap string string) i (b : region num) o,
             Layout.overlay_for img_width img_height translated_lines user_actions i b
             = Some (Some o) ->
             (8 <= ov_font_size o <= 16)%Z).
  { intros W Ht lines actions i b o Ho.
    destruct (overlay_for_inv _ _ _ _ _ _ _ Ho)
      as (_ & ? & ? & ? & ? & ? & ? & ? & ? & fs & _ & _ & _ & _ & _ & Hf & ->).
    cbn [ov_font_size]. by apply font_size_of_range in Hf. }
  split; [apply font_size_of_range |]. split; [exact Hbody |].
  intros image_size image_path bboxes lines actions lang doc Hdoc.
  destruct (create_processed_html_inv _ _ _ _ _ _ _ Hdoc)
    as (img_width & img_height & _ & Hovs).
  apply overlays_from_emitted in Hovs.
  exact (emitted_Forall _ _ _ _ _ _ _ (Hbody img_width img_height lines actions) Hovs).
Qed.

Lemma font_size_clamped_witness :
  exists font_size : Z,
    Layout.font_size_of (25.5)%float = Some font_size /\ (8 <= font_size <= 16)%Z.
Proof.
  exists 16%Z. split; [reflexivity |].
  exact (proj1 (proj2 font_size_clamped float float_Number) (25.5)%float 16%Z eq_refl).
Defined.



(** ** Percentages in exact arithmetic *)

Lemma Q_lt_true (x y : Q) : num_lt x y = true -> (x < y)%Q.
Proof.
  cbn. intros Hlt. apply negb_true_iff in Hlt.
  destruct (Qlt_le_dec x y) as [|Hle]; [done |].
  apply Qle_bool_iff in Hle. congruence.
Qed.

Lemma Q_lt_false (x y : Q) : num_lt x y = false -> (y <= x)%Q.
Proof. cbn. intros Hlt. apply negb_false_iff in Hlt. by apply Qle_bool_iff. Qed.

(** The running minimum is below its start and below all it has seen,
    and it is one of them. *)
Lemma fold_min_spec (rest : list Q) (best : Q) :
  let m := fold_left (fun best y => if num_lt y best then y else best) rest best in
  (m <= best)%Q /\ Forall (fun y => (m <= y)%Q) rest /\ (m = best \/ In m rest).
Proof.
  revert best. induction rest as [|y rest IH]; intros best; cbn [fold_left].
  - split; [apply Qle_refl |]. split; [constructor | by left].
  - destruct (num_lt y best) eqn:Hlt.
    + destruct (IH y) as (Hle & Hall & Hin). apply Q_lt_true in Hlt.
      split; [lra |]. split; [by constructor |].
      right. destruct Hin as [->|Hin]; [by left | by right].
    + destruct (IH best) as (Hle & Hall & Hin). apply Q_lt_false in Hlt.
      split; [done |]. split; [constructor; [lra | done] |].
      destruct Hin as [->|Hin]; [by left | right; by right].
Qed.

Lemma fold_max_spec (rest : list Q) (best : Q) :
  let m := fold_left (fun best y => if num_lt best y then y else best) rest best in
  (best <= m)%Q /\ Forall (fun y => (y <= m)%Q) rest /\ (m = best \/ In m rest).
Proof.
  revert best. induction rest as [|y rest IH]; intros best; cbn [fold_left].
  - split; [apply Qle_refl |]. split; [constructor | by left].
  - destruct (num_lt best y) eqn:Hlt.
    + destruct (IH y) as (Hle & Hall & Hin). apply Q_lt_true in Hlt.
      split; [lra |]. split; [by constructor |].
      right. destruct Hin as [->|Hin]; [by left | by right].
    + destruct (IH best) as (Hle & Hall & Hin). apply Q_lt_false in Hlt.
      split; [done |]. split; [constructor; [lra | done] |].
      destruct Hin as [->|Hin]; [by left | right; by right].
Qed.

(** The extremes of a non-empty list whose elements lie in [[lo, hi]]. *)
Lemma extremes_within (xs : list Q) (lo hi : Q) :
  xs <> [] ->
  Forall (fun x => (lo <= x <= hi)%Q) xs ->
  exists x_min x_max,
    Layout.py_min xs = Some x_min /\ Layout.py_max xs = Some x_max
    /\ (lo <= x_min)%Q /\ (x_min <= x_max)%Q /\ (x_max <= hi)%Q.
Proof.
  destruct xs as [|x rest]; [done |]. intros _ Hall.
  apply Forall_cons in Hall as [Hx Hrest].
  unfold Layout.py_min, Layout.py_max.
  destruct (fold_min_spec rest x) as (Hmin & _ & Hmin_in).
  destruct (fold_max_spec rest x) as (Hmax & _ & Hmax_in).
  eexists _, _. split; [reflexivity |]. split; [reflexivity |].
  rewrite Forall_forall in Hrest.
  split; [| split].
  - destruct Hmin_in as [->|Hin]; [lra |]. apply list_elem_of_In, Hrest in Hin. lra.
  - lra.
  - destruct Hmax_in as [->|Hin]; [lra |]. apply list_elem_of_In, Hrest in Hin. lra.
Qed.

Lemma within_image_Q (W Ht : Z) (quad : list (Q * Q)) :
  Layout.within_image W Ht quad = true ->
  Forall (fun x => (0 <= x <= inject_Z W)%Q) (map fst quad)
  /\ Forall (fun y => (0 <= y <= inject_Z Ht)%Q) (map snd quad).
Proof.
  unfold Layout.within_image. induction quad as [|[x y] rest IH]; cbn [forallb map].
  - intros _. split; constructor.
  - intros Hall. apply andb_true_iff in Hall as [Hpoint Hrest].
    destruct (IH Hrest) as [Hxs Hys].
    repeat (apply andb_true_iff in Hpoint as [Hpoint ?]).
    repeat match goal with
           | Hn : negb _ = true |- _ => apply negb_true_iff, Q_lt_false in Hn
           end.
    cbn [fst snd num_of_Z Q_Number] in *.
    split; constructor; try done; split; assumption.
Qed.

Lemma percent_Q (v : Q) (size : Z) :
  (0 < size)%Z ->
  Layout.percent v size = Some (v / inject_Z size * inject_Z 100)%Q.
Proof.
  intros Hpos. unfold Layout.percent. cbn. unfold Q_div.
  destruct (Qeq_bool (inject_Z size) 0) eqn:Hz; [|reflexivity].
  apply Qeq_bool_eq in Hz. unfold Qeq in Hz. simpl in Hz. lia.
Qed.

Lemma percent_range (v : Q) (size : Z) :
  (0 < size)%Z -> (0 <= v <= inject_Z size)%Q ->
  (0 <= v / inject_Z size * inject_Z 100 <= 100)%Q.
Proof.
  intros Hpos [Hlo Hhi].
  assert (Hs : (0 < inject_Z size)%Q) by (unfold Qlt; simpl; lia).
  assert (H0 : (0 <= v / inject_Z size)%Q).
  { apply Qle_shift_div_l; [done | lra]. }
  assert (H1 : (v / inject_Z size <= 1)%Q).
  { apply Qle_shift_div_r; [done | lra]. }
  change (inject_Z 100) with 100%Q. lra.
Qed.

Lemma percent_sum (a b size : Q) :
  (0 < size)%Q ->
  (a / size * 100 + (b - a) / size * 100 == b / size * 100)%Q.
Proof. intros Hs. field. lra. Qed.




(** ** Agent framework *)

Section FrameworkFacts.
Context {num : Type} `{Number num}.
Variable ollama : nat -> string -> agent_prompt -> option string.
Variable JSON_parse : string -> option (js_value num).
Variable model : string.

Lemma callOllama_reply prompt response fw :
  ollama (length (calls fw)) model prompt = Some response ->
  Agents.callOllama ollama model prompt fw =
  (Returned (Js.trim response), mk_framework (calls fw ++ [prompt]) (agentStates fw)).
Proof. intros Hr. unfold Agents.callOllama. by rewrite Hr. Qed.

Lemma callOllama_failure prompt fw :
  ollama (length (calls fw)) model prompt = None ->
  Agents.callOllama ollama model prompt fw =
  (Thrown, mk_framework (calls fw ++ [prompt]) (agentStates fw)).
Proof. intros Hr. unfold Agents.callOllama. by rewrite Hr. Qed.

(** The Validation stage on a reply: the parsed value, or the fallback. *)
Lemma validateTranslation_reply originalText translatedText sourceLang targetLang
    response fw :
  ollama (length (calls fw)) model (ValidationPrompt originalText translatedText)
  = Some response ->
  Agents.validateTranslation ollama JSON_parse model originalText translatedText
    sourceLang targetLang fw =
  (Returned (match JSON_parse (Js.trim response) with
             | Some v => v
             | None => Agents.validation_fallback
             end),
   mk_framework (calls fw ++ [ValidationPrompt originalText translatedText])
                (agentStates fw)).
Proof.
  intros Hr. unfold Agents.validateTranslation, Agents.bind.
  rewrite (callOllama_reply _ _ _ Hr).
  destruct (JSON_parse (Js.trim response)); reflexivity.
Qed.

(** The ConsistencyCheck stage on a reply. *)
Lemma checkConsistency_reply txt targetLang originalText response fw :
  ollama (length (calls fw)) model
    (ConsistencyPrompt originalText (Agents.getLanguageName targetLang) txt)
  = Some response ->
  Agents.checkConsistency ollama JSON_parse model txt targetLang originalText fw =
  (Returned (match Agents.consistency_parsed JSON_parse (Js.trim response)
                     (Agents.getLanguageName targetLang) with
             | Some verdict => verdict
             | None => Agents.consistency_fallback (Js.trim response)
                         (Agents.getLanguageName targetLang)
             end),
   mk_framework
     (calls fw ++ [ConsistencyPrompt originalText (Agents.getLanguageName targetLang) txt])
     (agentStates fw)).
Proof.
  intros Hr. unfold Agents.checkConsistency, Agents.bind.
  rewrite (callOllama_reply _ _ _ Hr).
  destruct (Agents.consistency_parsed _ _ _); reflexivity.
Qed.

(** [executeAgent] around a method that returns. *)
Lemma executeAgent_returned {A} agentName (run : Agents.J A) fw result fw' :
  run (mk_framework (calls fw) (<[agentName := Running]> (agentStates fw)))
  = (Returned result, fw') ->
  Agents.executeAgent agentName run fw =
  (Returned result, mk_framework (calls fw') (<[agentName := Completed]> (agentStates fw'))).
Proof. intros Hr. unfold Agents.executeAgent. by rewrite Hr. Qed.

Lemma executeAgent_thrown {A} agentName (run : Agents.J A) fw fw' :
  run (mk_framework (calls fw) (<[agentName := Running]> (agentStates fw)))
  = (Thrown, fw') ->
  Agents.executeAgent agentName run fw =
  (Thrown, mk_framework (calls fw') (<[agentName := Errored]> (agentStates fw'))).
Proof. intros Hr. unfold Agents.executeAgent. by rewrite Hr. Qed.

End FrameworkFacts.

(** *** Trimming does not change what a reply contains *)

Lemma lower_char_isspace (c : ascii) : Js.isspace (Js.lower_char c) = Js.isspace c.
Proof. destruct c as [[] [] [] [] [] [] [] []]; reflexivity. Qed.

Lemma toLowerCase_trimStart (s : string) :
  Js.toLowerCase (Js.trimStart s) = Js.trimStart (Js.toLowerCase s).
Proof.
  induction s as [|c s IH]; [reflexivity |].
  cbn [Js.trimStart Js.toLowerCase]. rewrite lower_char_isspace.
  destruct (Js.isspace c); [exact IH | reflexivity].
Qed.

Lemma toLowerCase_trimEnd (s : string) :
  Js.toLowerCase (Js.trimEnd s) = Js.trimEnd (Js.toLowerCase s).
Proof.
  induction s as [|c s IH]; [reflexivity |].
  cbn [Js.trimEnd Js.toLowerCase]. rewrite <- IH, lower_char_isspace.
  destruct (Js.trimEnd s) as [|d r]; cbn [Js.toLowerCase]; [|reflexivity].
  destruct (Js.isspace c); reflexivity.
Qed.

Lemma prefix_space (a c : ascii) (n s : string) :
  Js.isspace a = false -> Js.isspace c = true ->
  String.prefix (String a n) (String c s) = false.
Proof.
  intros Ha Hc. cbn [String.prefix].
  destruct (Ascii.ascii_dec a c) as [->|]; [congruence | reflexivity].
Qed.

Lemma includes_trimStart (n s : string) :
  n <> EmptyString -> Js.spaceless n = true ->
  Js.includes n (Js.trimStart s) = Js.includes n s.
Proof.
  destruct n as [|a n]; [done |]. intros _ Hn.
  cbn [Js.spaceless] in Hn. apply andb_true_iff in Hn as [Ha _].
  apply negb_true_iff in Ha.
  induction s as [|c s IH]; [reflexivity |].
  cbn [Js.trimStart]. destruct (Js.isspace c) eqn:Hc; [|reflexivity].
  rewrite IH.
  change (Js.includes (String a n) (String c s))
    with (String.prefix (String a n) (String c s) || Js.includes (String a n) s).
  by rewrite (prefix_space _ _ _ _ Ha Hc).
Qed.

Lemma trimEnd_cons_nonspace (c : ascii) (s : string) :
  Js.isspace c = false -> Js.trimEnd (String c s) = String c (Js.trimEnd s).
Proof.
  intros Hc. cbn [Js.trimEnd]. destruct (Js.trimEnd s); [by rewrite Hc | reflexivity].
Qed.

Lemma prefix_trimEnd (n s : string) :
  Js.spaceless n = true -> String.prefix n (Js.trimEnd s) = String.prefix n s.
Proof.
  revert s. induction n as [|a n IH]; intros s Hn.
  - by destruct (Js.trimEnd s), s.
  - cbn [Js.spaceless] in Hn. apply andb_true_iff in Hn as [Ha Hn].
    apply negb_true_iff in Ha.
    destruct s as [|c s]; [reflexivity |].
    destruct (Js.isspace c) eqn:Hc.
    + rewrite (prefix_space _ _ _ _ Ha Hc). cbn [Js.trimEnd].
      destruct (Js.trimEnd s) as [|d r]; [by rewrite Hc |].
      by rewrite (prefix_space _ _ _ _ Ha Hc).
    + rewrite (trimEnd_cons_nonspace _ _ Hc). cbn [String.prefix].
      destruct (Ascii.ascii_dec a c); [by apply IH | reflexivity].
Qed.

Lemma includes_trimEnd (n s : string) :
  n <> EmptyString -> Js.spaceless n = true ->
  Js.includes n (Js.trimEnd s) = Js.includes n s.
Proof.
  intros Hne Hn. induction s as [|c s IH]; [reflexivity |].
  change (Js.includes n (String c s))
    with (String.prefix n (String c s) || Js.includes n s).
  rewrite <- IH, <- (prefix_trimEnd n (String c s) Hn).
  destruct (Js.isspace c) eqn:Hc.
  - cbn [Js.trimEnd]. destruct (Js.trimEnd s) as [|d r] eqn:Hr.
    + rewrite Hc. destruct n; [done | reflexivity].
    + reflexivity.
  - rewrite (trimEnd_cons_nonspace _ _ Hc). reflexivity.
Qed.

(** The word test on the trimmed reply is the word test on the reply. *)
Lemma includes_lower_trim (n response : string) :
  n <> EmptyString -> Js.spaceless n = true ->
  Js.includes n (Js.toLowerCase (Js.trim response))
  = Js.includes n (Js.toLowerCase response).
Proof.
  intros Hne Hn. unfold Js.trim.
  rewrite toLowerCase_trimEnd, toLowerCase_trimStart.
  by rewrite includes_trimEnd, includes_trimStart.
Qed.






(** *** The pipeline up to its branch *)

Section PipelineFacts.
Context {num : Type} `{Number num}.
Variable ollama : nat -> string -> agent_prompt -> option string.
Variable JSON_parse : string -> option (js_value num).
Variable model : string.

(** When the first four stages get a reply, the pipeline arrives at its
    branch with the four prompts sent and the four agents completed. *)
Lemma pipeline_reaches_branch originalText sourceLang targetLang fw r1 r2 r3 r4 :
  let lang := Agents.getLanguageName targetLang in
  let context := Js.trim r1 in
  let translatedText := Js.trim r2 in
  let validation :=
    match JSON_parse (Js.trim r3) with
    | Some v => v
    | None => Agents.validation_fallback
    end in
  let consistencyCheck :=
    match Agents.consistency_parsed JSON_parse (Js.trim r4) lang with
    | Some verdict => verdict
    | None => Agents.consistency_fallback (Js.trim r4) lang
    end in
  ollama (length (calls fw)) model (ContextPrompt originalText lang) = Some r1 ->
  ollama (length (calls fw) + 1) model (TranslationPrompt lang context originalText)
  = Some r2 ->
  ollama (length (calls fw) + 2) model (ValidationPrompt originalText translatedText)
  = Some r3 ->
  ollama (length (calls fw) + 3) model (ConsistencyPrompt originalText lang translatedText)
  = Some r4 ->
  Agents.executeTranslationPipeline ollama JSON_parse model originalText sourceLang
    targetLang fw
  = Agents.quality_branch ollama JSON_parse model originalText sourceLang targetLang
      context translatedText validation consistencyCheck
      (mk_framework
         (calls fw ++ [ ContextPrompt originalText lang;
                        TranslationPrompt lang context originalText;
                        ValidationPrompt originalText translatedText;
                        ConsistencyPrompt originalText lang translatedText ])
         Agents.states_after_checks).
Proof.
  intros lang context translatedText validation consistencyCheck
    reply1 reply2 reply3 reply4.
  unfold Agents.executeTranslationPipeline.
  unfold Agents.bind at 1. unfold Agents.clear_states.
  unfold Agents.bind at 1.
  rewrite (executeAgent_returned "contextAnalyzer" _ _ context
             (mk_framework (calls fw ++ [ContextPrompt originalText lang])
                           (<["contextAnalyzer" := Running]> ∅))).
  2:{ unfold Agents.analyzeContext. apply callOllama_reply. exact reply1. }
  cbn [calls agentStates].
  unfold Agents.bind at 1.
  rewrite (executeAgent_returned "translator" _ _ translatedText
             (mk_framework ((calls fw ++ [ContextPrompt originalText lang])
                            ++ [TranslationPrompt lang context originalText])
                (<["translator" := Running]>
                   (<["contextAnalyzer" := Completed]>
                      (<["contextAnalyzer" := Running]> ∅))))).
  2:{ unfold Agents.translate. apply callOllama_reply. cbn [calls].
      rewrite length_app. exact reply2. }
  cbn [calls agentStates].
  unfold Agents.bind at 1.
  erewrite (executeAgent_returned "validator" _ _ validation).
  2:{ apply validateTranslation_reply. cbn [calls].
      rewrite !length_app. cbn [length]. rewrite <- Nat.add_assoc. exact reply3. }
  cbn [calls agentStates].
  unfold Agents.bind at 1.
  erewrite (executeAgent_returned "languageConsistencyChecker" _ _ consistencyCheck).
  2:{ apply checkConsistency_reply. cbn [calls].
      rewrite !length_app. cbn [length]. rewrite <- !Nat.add_assoc. exact reply4. }
  cbn [calls agentStates]. unfold Agents.states_after_checks.
  by rewrite <- !app_assoc.
Qed.

End PipelineFacts.

(** *** The branch *)

Section BranchFacts.
Context {num : Type} `{Number num}.
Variable ollama : nat -> string -> agent_prompt -> option string.
Variable JSON_parse : string -> option (js_value num).
Variable model : string.

Lemma is_string_true (v : js_value num) (s : string) :
  Agents.is_string v s = true <-> v = JStr s.
Proof.
  destruct v; cbn; try (split; [discriminate | discriminate]).
  rewrite bool_decide_eq_true. split; [by intros -> | by intros [= ->]].
Qed.

(** The test of step 5, spelled out. *)
Lemma needs_improvement_true (status : js_value num) (check : consistency_check num) :
  Agents.needs_improvement status check = true
  <-> status = JStr "needs_revision" \/ status = JStr "invalid"
      \/ Agents.to_boolean (isConsistent check) = false.
Proof.
  unfold Agents.needs_improvement.
  rewrite !orb_true_iff, !is_string_true, negb_true_iff. tauto.
Qed.

(** When the test fails nothing more is asked of the model and the
    translation is returned as it is. *)
Lemma quality_branch_skipped originalText sourceLang targetLang context translatedText
    validation check status fw :
  Agents.get validation "status" = Returned status ->
  Agents.needs_improvement status check = false ->
  Agents.quality_branch ollama JSON_parse model originalText sourceLang targetLang
    context translatedText validation check fw
  = (Returned translatedText, fw).
Proof.
  intros Hstatus Hneeds. unfold Agents.quality_branch.
  unfold Agents.bind at 1. rewrite Hstatus, Hneeds.
  unfold Agents.bind at 1. unfold Agents.ret at 1.
  rewrite decide_True by done.
  unfold Agents.bind, Agents.ret. by destruct (decide (translatedText = "")) as [->|].
Qed.

(** The final validation adds one call and touches no state but the
    validator's. *)
Lemma final_validation_frame originalText finalText sourceLang targetLang fw out fw' :
  Agents.executeAgent "validator"
    (Agents.validateTranslation ollama JSON_parse model originalText finalText
       sourceLang targetLang) fw = (out, fw') ->
  calls fw' = calls fw ++ [ValidationPrompt originalText finalText]
  /\ forall agentName, agentName <> "validator" ->
       agentStates fw' !! agentName = agentStates fw !! agentName.
Proof.
  unfold Agents.executeAgent, Agents.validateTranslation, Agents.bind, Agents.callOllama.
  cbn [calls agentStates].
  destruct (ollama (length (calls fw)) model (ValidationPrompt originalText finalText))
    as [r6|]; [destruct (JSON_parse (Js.trim r6)) |];
    unfold Agents.ret; intros [= <- <-]; cbn [calls agentStates];
    (split; [reflexivity |]); intros agentName Hne;
    by rewrite !lookup_insert_ne.
Qed.

(** When the test succeeds the next call of the framework is the
    improvement prompt, and the agent's state is recorded whatever comes
    after. *)
Lemma quality_branch_taken originalText sourceLang targetLang context translatedText
    validation check status fw :
  Agents.get validation "status" = Returned status ->
  Agents.needs_improvement status check = true ->
  let run := Agents.quality_branch ollama JSON_parse model originalText sourceLang
               targetLang context translatedText validation check fw in
  calls run.2 !! length (calls fw)
  = Some (QualityPrompt originalText translatedText context)
  /\ is_Some (agentStates run.2 !! "qualityAssurance").
Proof.
  intros Hstatus Hneeds run.
  assert (Hrun : exists later,
             calls run.2
             = calls fw ++ QualityPrompt originalText translatedText context :: later
             /\ is_Some (agentStates run.2 !! "qualityAssurance")).
  { destruct run as [out fwr] eqn:Hrun. subst run. cbn [snd].
    unfold Agents.quality_branch in Hrun.
    unfold Agents.bind at 1 in Hrun. rewrite Hstatus, Hneeds in Hrun.
    unfold Agents.bind at 1 in Hrun.
    unfold Agents.executeAgent at 1, Agents.improveTranslation,
      Agents.callOllama at 1 in Hrun.
    cbn [calls agentStates] in Hrun.
    destruct (ollama (length (calls fw)) model
                (QualityPrompt originalText translatedText context)) as [r5|].
    - unfold Agents.bind at 1 in Hrun.
      destruct (decide (Js.trim r5 = translatedText)) as [Heq|Hne].
      + unfold Agents.ret in Hrun. simplify_eq. cbn [calls agentStates].
        exists []. split; [reflexivity |]. rewrite lookup_insert_eq. by eexists.
      + unfold Agents.bind at 1 in Hrun.
        destruct (Agents.executeAgent "validator" _ _) as [final fw'] eqn:Hfinal.
        apply final_validation_frame in Hfinal as [Hcalls Hstates].
        cbn [calls agentStates] in Hcalls, Hstates.
        assert (Hq : is_Some (agentStates fw' !! "qualityAssurance")).
        { rewrite Hstates by done. rewrite lookup_insert_eq. by eexists. }
        destruct final as [v|]; unfold Agents.ret in Hrun; simplify_eq;
          (eexists; split; [rewrite Hcalls, <- app_assoc; reflexivity | exact Hq]).
    - simplify_eq. cbn [calls agentStates].
      exists []. split; [reflexivity |]. rewrite lookup_insert_eq. by eexists. }
  destruct Hrun as (later & Hcalls & Hq). split; [|exact Hq].
  rewrite Hcalls. by rewrite lookup_app_r, Nat.sub_diag by lia.
Qed.

Lemma states_after_checks_quality :
  Agents.states_after_checks !! "qualityAssurance" = None.
Proof. reflexivity. Qed.

End BranchFacts.



(** A run in which both structured replies are free text: the fallback
    verdict asks for a revision, so the quality agent runs and its text is
    what the pipeline returns. *)
Example free_text_replies_trigger_improvement :
  (Agents.executeTranslationPipeline Samples.model_rambles Samples.parse_sample
     "gemma3:4b" "TENDER ENQUIRY NOTICE" "en" "te" Samples.fresh_framework).1
  = Returned "merugaina anuvaadam".
Proof. vm_compute. reflexivity. Qed.

(** ** Worked examples *)

(** The built-in ladder on an engine that raises at the first entry,
    finds nothing at the second and one paragraph at the third: three
    attempts, and the paragraph gets the default confidence 0.9. *)
Example third_entry_wins :
  Ocr.process_image_with_ocr (num := Q) Samples.third_entry_only "scan.png"
  = ([Samples.region_b],
     [(["en"], true); (["en"; "hi"], true); (["en"; "te"], true)]).
Proof. vm_compute. reflexivity. Qed.

(** An engine that never finds anything: the five entries, then the
    retry without paragraph grouping. *)
Example nothing_found_retries_once :
  (Ocr.process_image_with_ocr (num := Q) (fun _ _ _ => Some []) "scan.png").2
  = map (fun c => (c, true)) Ocr.language_combinations ++ [(["en"], false)].
Proof. vm_compute. reflexivity. Qed.

(** Three regions, no action chosen: three overlays with the recognised
    texts. *)
Example all_preserved :
  option_map (fun doc => map ov_text (text_overlays doc))
    (Layout.create_processed_html (num := Q) Samples.square_image "scan.png"
       [Samples.region_a; Samples.region_b; Samples.region_b] ["x"; "y"; "z"] ∅ "te")
  = Some ["Government of India"; "Hello"; "Hello"].
Proof. vm_compute. reflexivity. Qed.

(** * Further properties of the code *)

(** ** The extractor as a whole *)

(** X1.  Whatever the OCR engine does, [process_image_with_ocr] makes at
    least one and at most six attempts, and it returns no region exactly
    when all five entries of its ladder and the retry without paragraph
    grouping yield nothing. *)
Theorem extractor_attempt_budget :
  forall (num : Type) (N : Number num)
         (readtext : string -> list string -> bool -> option (list (ocr_result num)))
         (image : string),
    1 <= length (Ocr.process_image_with_ocr readtext image).2 <= 6
    /\ ((Ocr.process_image_with_ocr readtext image).1 = []
        <-> Forall (fun c => Ocr.attempt_regions readtext image (c, true) = [])
                   Ocr.language_combinations
            /\ Ocr.attempt_regions readtext image (["en"], false) = []).
Proof.
  intros num N readtext image.
  unfold Ocr.process_image_with_ocr, Ocr.process_image_with_ocr_on.
  destruct (ladder_loop_cases readtext image Ocr.language_combinations [])
    as [(pre & e & post & Hsplit & Hpre & He & Hrun)|[Hall Hrun]]; rewrite Hrun.
  - assert (Hlen : length pre + S (length post) = 5).
    { apply (f_equal length) in Hsplit. rewrite length_app in Hsplit.
      simpl in Hsplit. lia. }
    destruct (Ocr.attempt_regions readtext image (e, true)) as [|r rs] eqn:Hregions;
      [done |].
    cbn [fst snd]. rewrite app_nil_l, length_map, length_app. simpl.
    split; [lia |]. split; [done |].
    intros [Hall _]. rewrite Hsplit in Hall.
    apply Forall_app in Hall as [_ Hall]. apply Forall_cons in Hall as [Hnone _].
    rewrite Hregions in Hnone. done.
  - cbn [app]. unfold Ocr.attempt_regions at 2. cbn [fst snd].
    destruct (readtext image ["en"] false) as [results|]; cbn [fst snd].
    + rewrite length_app, length_map. simpl. split; [lia |].
      split; [by intros -> | by intros [_ ->]].
    + rewrite length_app, length_map. simpl. split; [lia |]. by split.
Qed.

(** ** Fallback translation *)

Lemma string_length_append (a b : string) :
  String.length (a ++ b) = String.length a + String.length b.
Proof. induction a as [|c a IH]; simpl; [reflexivity | by rewrite IH]. Qed.

(** X2.  [fallback_translation] never hands the text back as it came: its
    result differs from the text for every text and every language code
    (either a phrase was replaced, or the text is wrapped in the note). *)
Theorem fallback_never_returns_input :
  forall txt target_language : string,
    fallback_translation txt target_language <> txt.
Proof.
  intros txt target_language. unfold fallback_translation.
  destruct (decide (apply_translations _ txt = txt)) as [_|Hne]; [|exact Hne].
  unfold unavailable_note. intros Heq. apply (f_equal String.length) in Heq.
  rewrite !string_length_append in Heq. simpl in Heq. lia.
Qed.



(** X4.  The tables are consistent with the way they are applied, phrase
    after phrase in table order: for every language and every entry of its
    table, the fallback of the phrase alone is the entry's translation. *)
Theorem fallback_of_table_phrase :
  forall (target_language phrase translation : string),
    In (phrase, translation) (dict_get fallback_translations target_language []) ->
    fallback_translation phrase target_language = translation.
Proof.
  intros target_language phrase translation.
  unfold fallback_translations. cbn [dict_get].
  repeat (destruct (decide (_ = target_language)) as [<-|_]);
    cbn [In]; intros Hin;
    repeat (destruct Hin as [[= <- <-]|Hin]; [vm_compute; reflexivity |]);
    destruct Hin.
Qed.

Lemma fallback_of_table_phrase_witness :
  fallback_translation "Terms and Conditions" "hi" = "नियम और शर्तें".
Proof.
  apply (fallback_of_table_phrase "hi" "Terms and Conditions" "नियम और शर्तें").
  vm_compute. do 12 right. left. reflexivity.
Defined.

(** ** Prompts *)

Lemma prefix_append (t b : string) : String.prefix t (t ++ b) = true.
Proof.
  induction t as [|c t IH]; simpl; [by destruct b |].
  destruct (Ascii.ascii_dec c c); [exact IH | done].
Qed.

Lemma contains_here (t b : string) : Py.contains t (t ++ b) = true.
Proof.
  destruct (t ++ b)%string eqn:Heq; cbn [Py.contains];
    rewrite <- Heq, prefix_append; reflexivity.
Qed.

Lemma contains_append_r (t a s : string) :
  Py.contains t s = true -> Py.contains t (a ++ s) = true.
Proof.
  intros Hs. induction a as [|c a IH]; [exact Hs |].
  change (String.prefix t (String c (a ++ s)) || Py.contains t (a ++ s) = true).
  rewrite IH. apply orb_true_r.
Qed.

(** X5.  In both modes and for every language, the prompt sent for a
    region contains the region's text verbatim: nothing is escaped,
    truncated or normalised on the way to the model. *)
Theorem prompt_embeds_text :
  forall (agent_mode : bool) (target_language txt : string),
    Py.contains txt (region_prompt agent_mode target_language txt) = true.
Proof.
  intros agent_mode target_language txt.
  unfold region_prompt, direct_prompt, legal_prompt, translate_prompt, improve_prompt.
  destruct agent_mode; [| destruct (decide (target_language = "en"))];
    repeat first [ apply contains_here | apply contains_append_r ].
Qed.

(** ** Uploads *)

Section UploadFacts.
Context {num : Type} `{Number num}.
Variable readtext : string -> list string -> bool -> option (list (ocr_result num)).
Variable ollama_generate : nat -> string -> string -> option string.

(** The lines an upload stores for the regions it has found. *)
Lemma upload_image_found s file_path model agent_mode target_language b rest attempts :
  Ocr.process_image_with_ocr readtext file_path = (b :: rest, attempts) ->
  let lines := imap (fun i r => Translate.region_result ollama_generate agent_mode model
                                  target_language i (text r)) (b :: rest) in
  Server.upload_image readtext ollama_generate s file_path model agent_mode target_language
  = Server.mk_upload_run
      (match Server.text_regions_from lines 0 (b :: rest) with
       | Some regions => Uploaded regions
       | None => UploadFailed
       end)
      (mk_session (Some file_path) (b :: rest) lines target_language)
      attempts
      (map (fun r => (model, region_prompt agent_mode target_language (text r))) (b :: rest)).
Proof.
  intros Hocr lines. unfold Server.upload_image. rewrite Hocr.
  rewrite translate_regions_run.
  change (imap _ (b :: rest)) with lines.
  destruct (Server.text_regions_from lines 0 (b :: rest)); reflexivity.
Qed.

Lemma upload_image_nothing s file_path model agent_mode target_language attempts :
  Ocr.process_image_with_ocr readtext file_path = ([], attempts) ->
  Server.upload_image readtext ollama_generate s file_path model agent_mode target_language
  = Server.mk_upload_run
      (NoTextDetected Server.no_text_error Server.no_text_suggestions)
      (mk_session (Some file_path) [] (current_translated_text s) (current_target_language s))
      attempts [].
Proof. intros Hocr. unfold Server.upload_image. by rewrite Hocr. Qed.

(** The entries built for the response, read back from the list. *)
Lemma text_regions_from_spec lines i (bboxes : list (region num)) regions :
  Server.text_regions_from lines i bboxes = Some regions ->
  map rd_id regions = seq i (length bboxes)
  /\ map rd_text regions = map text bboxes
  /\ map rd_title regions
     = map (fun k => ("Text Region " ++ Py.str (k + 1))%string) (seq i (length bboxes))
  /\ Forall (fun rd => rd_action rd = "preserve") regions
  /\ map rd_translated regions
     = imap (fun k b => match lines !! (i + k) with
                        | Some line => line
                        | None => text b
                        end) bboxes.
Proof.
  revert i regions. induction bboxes as [|b rest IH]; intros i regions Hrun.
  - simpl in Hrun. simplify_eq. repeat split; constructor.
  - cbn [Server.text_regions_from] in Hrun.
    destruct (Server.region_data_for lines i b) as [rd|] eqn:Hrd; [|done].
    simpl in Hrun.
    destruct (Server.text_regions_from lines (S i) rest) as [rds|] eqn:Hrest; [|done].
    simpl in Hrun. simplify_eq.
    destruct (IH _ _ Hrest) as (Hid & Htext & Htitle & Hact & Htr).
    unfold Server.region_data_for in Hrd.
    destruct (Layout.extent (bbox b)) as [[[[x_min x_max] y_min] y_max]|]; [|done].
    simpl in Hrd. simplify_eq.
    cbn [map length seq rd_id rd_text rd_title rd_action rd_translated imap].
    rewrite Hid, Htext, Htitle, Htr, Nat.add_0_r.
    repeat split; [by constructor |].
    f_equal. apply imap_ext. intros k r _. simpl.
    by replace (i + S k) with (S i + k) by lia.
Qed.

(** Building the response fails exactly on a region without corners. *)
Lemma extent_None (quad : list (num * num)) : Layout.extent quad = None <-> quad = [].
Proof.
  unfold Layout.extent. destruct quad as [|p quad]; [done |].
  cbn [map Layout.py_min Layout.py_max]. done.
Qed.

Lemma text_regions_from_None lines i (bboxes : list (region num)) :
  Server.text_regions_from lines i bboxes = None <-> Exists (fun b => bbox b = []) bboxes.
Proof.
  revert i. induction bboxes as [|b rest IH]; intros i.
  - simpl. split; [done | by intros ?%Exists_nil].
  - cbn [Server.text_regions_from]. rewrite Exists_cons, <- (IH (S i)).
    unfold Server.region_data_for.
    destruct (Layout.extent (bbox b)) as [[[[x_min x_max] y_min] y_max]|] eqn:He.
    + simpl. assert (bbox b <> []).
      { intros Hnil. apply extent_None in Hnil. congruence. }
      destruct (Server.text_regions_from lines (S i) rest); simpl;
        (split; [intros Hn; try done; by right | intros [Hn|Hn]; done]).
    + simpl. apply extent_None in He. split; [by left | done].
Qed.

End UploadFacts.

(** X6.  After an upload that found text, in either mode, the session
    holds exactly one translated line per region: line [i] is the model's
    reply to the prompt of region [i], or the fallback of region [i]'s
    text when that call failed; the prompts were sent one per region in
    region order; and the session records the uploaded file and the
    requested language. *)
Theorem upload_stores_one_line_per_region :
  forall (num : Type) (N : Number num)
         (readtext : string -> list string -> bool -> option (list (ocr_result num)))
         (ollama_generate : nat -> string -> string -> option string)
         (s : session num) (file_path model : string) (agent_mode : bool)
         (target_language : string),
    let run := Server.upload_image readtext ollama_generate s file_path model agent_mode
                 target_language in
    let g := Server.globals run in
    current_bboxes g <> [] ->
    length (current_translated_text g) = length (current_bboxes g)
    /\ Server.llm_log run
       = map (fun b => (model, region_prompt agent_mode target_language (text b)))
             (current_bboxes g)
    /\ current_image_path g = Some file_path
    /\ current_target_language g = target_language
    /\ forall i b, current_bboxes g !! i = Some b ->
         current_translated_text g !! i
         = Some (match ollama_generate i model
                         (region_prompt agent_mode target_language (text b)) with
                 | Some reply => reply
                 | None => fallback_translation (text b) target_language
                 end).
Proof.
  intros num N readtext ollama_generate s file_path model agent_mode target_language run g.
  subst g run.
  destruct (Ocr.process_image_with_ocr readtext file_path) as [[|b rest] attempts] eqn:Hocr.
  - rewrite (upload_image_nothing _ _ _ _ _ _ _ _ Hocr). cbn. done.
  - rewrite (upload_image_found _ _ _ _ _ _ _ _ _ _ Hocr). cbn [Server.globals
      Server.llm_log current_bboxes current_translated_text current_image_path
      current_target_language].
    intros _. rewrite length_imap. repeat split; [].
    intros i r Hr. rewrite list_lookup_imap, Hr. reflexivity.
Qed.

Lemma upload_stores_one_line_per_region_witness :
  current_translated_text
    (Server.globals
       (Server.upload_image (num := Q) Samples.two_paragraphs Samples.first_call_only
          Server.initial_session "scan.png" "gemma3:4b" false "te"))
  = [ "  bharata prabhutvam  ";
      "[TE] Hello [Translation unavailable - Ollama service required]" ].
Proof.
  destruct (upload_stores_one_line_per_region Q _ Samples.two_paragraphs
              Samples.first_call_only Server.initial_session "scan.png" "gemma3:4b"
              false "te") as (Hlen & _ & _ & _ & Hline).
  - vm_compute. discriminate.
  - pose proof (Hline 0 Samples.region_a eq_refl) as H0.
    pose proof (Hline 1 Samples.region_b eq_refl) as H1.
    destruct (current_translated_text _) as [|l0 [|l1 [|l2 ls]]]; try discriminate Hlen.
    cbn in H0, H1. injection H0 as ->. injection H1 as ->. reflexivity.
Defined.

(** X7.  An upload answers "no text detected" exactly when the
    extractor returns no region.  Then no prompt is sent, the answer
    carries the four suggestions, the session keeps the translated lines
    and the language of the previous upload but no region, and a later
    [process_document] reports that no image was processed, whatever the
    actions: the previous document can no longer be finalised. *)
Theorem upload_without_text :
  forall (num : Type) (N : Number num)
         (readtext : string -> list string -> bool -> option (list (ocr_result num)))
         (ollama_generate : nat -> string -> string -> option string)
         (s : session num) (file_path model : string) (agent_mode : bool)
         (target_language : string),
    let run := Server.upload_image readtext ollama_generate s file_path model agent_mode
                 target_language in
    ((Ocr.process_image_with_ocr readtext file_path).1 = []
     <-> Server.response run = NoTextDetected Server.no_text_error Server.no_text_suggestions)
    /\ length Server.no_text_suggestions = 4
    /\ ((Ocr.process_image_with_ocr readtext file_path).1 = [] ->
        Server.llm_log run = []
        /\ current_bboxes (Server.globals run) = []
        /\ current_translated_text (Server.globals run) = current_translated_text s
        /\ current_target_language (Server.globals run) = current_target_language s
        /\ forall image_size user_actions,
             Server.process_document image_size (Server.globals run) user_actions
             = NoImageProcessed).
Proof.
  intros num N readtext ollama_generate s file_path model agent_mode target_language run.
  subst run.
  destruct (Ocr.process_image_with_ocr readtext file_path) as [[|b rest] attempts] eqn:Hocr.
  - rewrite (upload_image_nothing _ _ _ _ _ _ _ _ Hocr). cbn. done.
  - rewrite (upload_image_found _ _ _ _ _ _ _ _ _ _ Hocr). cbn [fst Server.response].
    split; [| done].
    split; [done |].
    by destruct (Server.text_regions_from _ 0 (b :: rest)).
Qed.

Lemma upload_without_text_witness :
  Server.process_document Samples.square_image
    (Server.globals
       (Server.upload_image (num := Q) Samples.blank_page Samples.service_up
          (Server.globals Samples.agentic_upload) "blank.png" "gemma3:4b" false "hi"))
    Samples.translate_both
  = NoImageProcessed.
Proof.
  destruct (upload_without_text Q _ Samples.blank_page Samples.service_up
              (Server.globals Samples.agentic_upload) "blank.png" "gemma3:4b" false "hi")
    as (_ & _ & Hnone).
  destruct (Hnone eq_refl) as (_ & _ & _ & _ & Hprocess).
  apply Hprocess.
Defined.

(** X8.  When an upload succeeds, its answer lists the regions in
    extraction order with the ids 0, 1, 2, ..., the titles
    "Text Region 1", "Text Region 2", ..., the recognised texts, the
    translated lines the session stores, and the action [preserve]. *)
Theorem upload_response_lists_regions :
  forall (num : Type) (N : Number num)
         (readtext : string -> list string -> bool -> option (list (ocr_result num)))
         (ollama_generate : nat -> string -> string -> option string)
         (s : session num) (file_path model : string) (agent_mode : bool)
         (target_language : string) (regions : list (region_data num)),
    let run := Server.upload_image readtext ollama_generate s file_path model agent_mode
                 target_language in
    Server.response run = Uploaded regions ->
    map rd_id regions = seq 0 (length (current_bboxes (Server.globals run)))
    /\ map rd_title regions
       = map (fun k => ("Text Region " ++ Py.str (k + 1))%string)
             (seq 0 (length (current_bboxes (Server.globals run))))
    /\ map rd_text regions = map text (current_bboxes (Server.globals run))
    /\ map rd_translated regions = current_translated_text (Server.globals run)
    /\ Forall (fun rd => rd_action rd = "preserve") regions.
Proof.
  intros num N readtext ollama_generate s file_path model agent_mode target_language
    regions run. subst run.
  destruct (Ocr.process_image_with_ocr readtext file_path) as [[|b rest] attempts] eqn:Hocr.
  - by rewrite (upload_image_nothing _ _ _ _ _ _ _ _ Hocr).
  - rewrite (upload_image_found _ _ _ _ _ _ _ _ _ _ Hocr).
    cbn [Server.response Server.globals current_bboxes current_translated_text].
    set (lines := imap _ (b :: rest)).
    destruct (Server.text_regions_from lines 0 (b :: rest)) as [rs|] eqn:Hrs; [|done].
    intros [= <-].
    destruct (text_regions_from_spec _ _ _ _ Hrs) as (Hid & Htext & Htitle & Hact & Htr).
    repeat split; try done.
    rewrite Htr. apply list_eq. intros k.
    rewrite list_lookup_imap. cbn [Nat.add].
    destruct (lines !! k) as [line|] eqn:Hline.
    + apply lookup_lt_Some in Hline as Hlt. unfold lines in Hlt. rewrite length_imap in Hlt.
      destruct (lookup_lt_is_Some_2 (b :: rest) k Hlt) as [r ->]. reflexivity.
    + apply lookup_ge_None in Hline. unfold lines in Hline. rewrite length_imap in Hline.
      by rewrite (lookup_ge_None_2 (b :: rest) k Hline).
Qed.

Lemma upload_response_lists_regions_witness :
  exists regions : list (region_data Q),
    Server.response Samples.agentic_upload = Uploaded regions
    /\ map rd_id regions = [0; 1]
    /\ map rd_translated regions = ["anuvaadam"; "anuvaadam"].
Proof.
  destruct (Server.response Samples.agentic_upload) as [| regions |] eqn:Hresp;
    [vm_compute in Hresp; discriminate | | vm_compute in Hresp; discriminate].
  exists regions. split; [reflexivity |].
  destruct (upload_response_lists_regions Q _ Samples.two_paragraphs Samples.service_up
              Server.initial_session "scan.png" "gemma3:4b" true "te" regions Hresp)
    as (Hid & _ & _ & Htr & _).
  split; [exact Hid | exact Htr].
Defined.

(** X9.  An upload that found text fails to answer exactly when some
    region has a quad without corner points ([min()] of an empty sequence
    raises).  By then every region has been sent for translation and the
    session has been replaced. *)
Theorem upload_fails_on_cornerless_region :
  forall (num : Type) (N : Number num)
         (readtext : string -> list string -> bool -> option (list (ocr_result num)))
         (ollama_generate : nat -> string -> string -> option string)
         (s : session num) (file_path model : string) (agent_mode : bool)
         (target_language : string),
    let run := Server.upload_image readtext ollama_generate s file_path model agent_mode
                 target_language in
    (Ocr.process_image_with_ocr readtext file_path).1 <> [] ->
    (Server.response run = UploadFailed
     <-> Exists (fun b => bbox b = []) (Ocr.process_image_with_ocr readtext file_path).1)
    /\ (Server.response run = UploadFailed ->
        length (Server.llm_log run)
        = length (Ocr.process_image_with_ocr readtext file_path).1
        /\ current_bboxes (Server.globals run)
           = (Ocr.process_image_with_ocr readtext file_path).1
        /\ current_target_language (Server.globals run) = target_language).
Proof.
  intros num N readtext ollama_generate s file_path model agent_mode target_language run.
  subst run.
  destruct (Ocr.process_image_with_ocr readtext file_path) as [[|b rest] attempts] eqn:Hocr;
    [done |].
  intros _. rewrite (upload_image_found _ _ _ _ _ _ _ _ _ _ Hocr).
  cbn [fst Server.response Server.globals Server.llm_log current_bboxes
       current_target_language].
  set (lines := imap _ (b :: rest)).
  rewrite <- (text_regions_from_None lines 0 (b :: rest)).
  split; [| by rewrite length_map].
  by destruct (Server.text_regions_from lines 0 (b :: rest)).
Qed.

Lemma upload_fails_on_cornerless_region_witness :
  Server.response
    (Server.upload_image (num := Q) Samples.cornerless Samples.service_up
       Server.initial_session "scan.png" "gemma3:4b" false "te")
  = UploadFailed.
Proof.
  destruct (upload_fails_on_cornerless_region Q _ Samples.cornerless Samples.service_up
              Server.initial_session "scan.png" "gemma3:4b" false "te") as [Hiff _].
  - vm_compute. discriminate.
  - apply Hiff. vm_compute. by left.
Defined.

Lemma py_min_lower (xs : list Q) (m : Q) :
  Layout.py_min xs = Some m -> Forall (fun x => (m <= x)%Q) xs.
Proof.
  destruct xs as [|x rest]; [done |]. intros [= <-].
  destruct (fold_min_spec rest x) as (Hbest & Hrest & _). by constructor.
Qed.

Lemma py_max_upper (xs : list Q) (m : Q) :
  Layout.py_max xs = Some m -> Forall (fun x => (x <= m)%Q) xs.
Proof.
  destruct xs as [|x rest]; [done |]. intros [= <-].
  destruct (fold_max_spec rest x) as (Hbest & Hrest & _). by constructor.
Qed.

(** X10.  In exact arithmetic, the box an upload reports for a region
    encloses the region's quad: its width and height are not negative
    and every corner point lies between [x] and [x + width] and between
    [y] and [y + height]. *)
Theorem response_box_encloses_quad :
  forall (translated_lines : list string) (i : nat) (b : region Q) (rd : region_data Q),
    Server.region_data_for translated_lines i b = Some rd ->
    (0 <= rd_width rd)%Q /\ (0 <= rd_height rd)%Q
    /\ Forall (fun point =>
                 (rd_x rd <= point.1 <= rd_x rd + rd_width rd)%Q
                 /\ (rd_y rd <= point.2 <= rd_y rd + rd_height rd)%Q)
              (bbox b).
Proof.
  intros lines i b rd Hrd. unfold Server.region_data_for, Layout.extent in Hrd.
  assert (Hquad : exists p0, In p0 (bbox b)).
  { destruct (bbox b) as [|p0 quad]; [done | exists p0; by left]. }
  destruct (Layout.py_min (map fst (bbox b))) as [x_min|] eqn:Hxmin; [|done].
  destruct (Layout.py_max (map fst (bbox b))) as [x_max|] eqn:Hxmax; [|done].
  destruct (Layout.py_min (map snd (bbox b))) as [y_min|] eqn:Hymin; [|done].
  destruct (Layout.py_max (map snd (bbox b))) as [y_max|] eqn:Hymax; [|done].
  simpl in Hrd. injection Hrd as <-. cbn [rd_x rd_y rd_width rd_height].
  pose proof (proj1 (List.Forall_forall _ _) (py_min_lower _ _ Hxmin)) as Hx1.
  pose proof (proj1 (List.Forall_forall _ _) (py_max_upper _ _ Hxmax)) as Hx2.
  pose proof (proj1 (List.Forall_forall _ _) (py_min_lower _ _ Hymin)) as Hy1.
  pose proof (proj1 (List.Forall_forall _ _) (py_max_upper _ _ Hymax)) as Hy2.
  assert (Hpoint : forall p, In p (bbox b) ->
             (x_min <= p.1 <= x_max)%Q /\ (y_min <= p.2 <= y_max)%Q).
  { intros p Hp.
    pose proof (Hx1 _ (in_map fst _ _ Hp)). pose proof (Hx2 _ (in_map fst _ _ Hp)).
    pose proof (Hy1 _ (in_map snd _ _ Hp)). pose proof (Hy2 _ (in_map snd _ _ Hp)).
    done. }
  destruct Hquad as [p0 Hp0].
  destruct (Hpoint p0 Hp0) as [[? ?] [? ?]].
  split; [lra |]. split; [lra |].
  apply List.Forall_forall. intros p Hp.
  destruct (Hpoint p Hp) as [[? ?] [? ?]]. split; lra.
Qed.

Lemma response_box_encloses_quad_witness :
  exists rd : region_data Q,
    Server.region_data_for [] 0 Samples.region_b = Some rd
    /\ (0 <= rd_width rd)%Q /\ (0 <= rd_height rd)%Q.
Proof.
  destruct (Server.region_data_for [] 0 (Samples.region_b (num := Q))) as [rd|] eqn:Hrd;
    [| vm_compute in Hrd; discriminate].
  exists rd. split; [reflexivity |].
  destruct (response_box_encloses_quad [] 0 Samples.region_b rd Hrd) as (Hw & Hh & _).
  split; [exact Hw | exact Hh].
Defined.



(** ** Layout *)

Lemma length_enumerate_from {A} (l : list A) (start : nat) :
  length (Py.enumerate_from start l) = length l.
Proof.
  revert start. induction l as [|x rest IH]; intros start; simpl; [reflexivity |].
  by rewrite IH.
Qed.

(** X12.  The overlays of a processed document are, in region order, one
    per region that is not blanked; each carries the action read for its
    region as label and the text that action selects: the stripped
    translated line for [translate] when there is one, the recognised
    text in every other case. *)
Theorem overlays_follow_region_order :
  forall (num : Type) (N : Number num) (image_size : string -> option (Z * Z))
         (image_path : string) (bboxes : list (region num)) (translated_lines : list string)
         (user_actions : gmap string string) (target_language : string)
         (doc : processed_html num),
    Layout.create_processed_html image_size image_path bboxes translated_lines
      user_actions target_language = Some doc ->
    let action := fun i : nat => default "preserve" (user_actions !! Py.str i) in
    let kept := filter (fun ib : nat * region num => action ib.1 <> "whiteout")
                       (Py.enumerate bboxes) in
    map ov_text (text_overlays doc)
    = map (fun ib => Layout.text_shown translated_lines (action ib.1) ib.1 ib.2) kept
    /\ map ov_action (text_overlays doc) = map (fun ib => action ib.1) kept
    /\ length (text_overlays doc) <= length bboxes.
Proof.
  intros num N image_size image_path bboxes lines actions lang doc Hdoc action kept.
  destruct (create_processed_html_inv _ _ _ _ _ _ _ Hdoc) as (W & Ht & _ & Hovs).
  apply overlays_from_emitted in Hovs. fold action in Hovs.
  change (filter _ (Py.enumerate_from 0 bboxes)) with kept in Hovs.
  assert (Hlen : length kept <= length bboxes).
  { subst kept. etransitivity; [apply length_filter |].
    unfold Py.enumerate. by rewrite length_enumerate_from. }
  rewrite (Forall2_length _ _ _ Hovs).
  split; [| split; [| exact Hlen]]; clear Hlen Hdoc; clearbody kept.
  - induction Hovs as [|o ib ovs ibs Ho _ IH]; [reflexivity |].
    destruct (overlay_for_inv _ _ _ _ _ _ _ Ho)
      as (_ & ? & ? & ? & ? & ? & ? & ? & ? & ? & _ & _ & _ & _ & _ & _ & ->).
    cbn [map ov_text]. by rewrite IH.
  - induction Hovs as [|o ib ovs ibs Ho _ IH]; [reflexivity |].
    cbn [map]. rewrite (overlay_for_action _ _ _ _ _ _ _ Ho). by rewrite IH.
Qed.

Lemma overlays_follow_region_order_witness :
  exists doc : processed_html Q,
    Layout.create_processed_html Samples.square_image "scan.png"
      [Samples.region_a; Samples.region_b; Samples.region_b] ["  line  "] ∅ "te"
    = Some doc
    /\ map ov_text (text_overlays doc) = ["Government of India"; "Hello"; "Hello"]
    /\ map ov_action (text_overlays doc) = ["preserve"; "preserve"; "preserve"].
Proof.
  destruct (Layout.create_processed_html Samples.square_image "scan.png"
              [Samples.region_a (num := Q); Samples.region_b; Samples.region_b]
              ["  line  "] ∅ "te") as [doc|] eqn:Hdoc;
    [| vm_compute in Hdoc; discriminate].
  exists doc. split; [reflexivity |].
  destruct (overlays_follow_region_order Q _ _ _ _ _ _ _ doc Hdoc) as (Htext & Hact & _).
  split; [rewrite Htext | rewrite Hact]; vm_compute; reflexivity.
Defined.

(** X13.  An action that is neither [whiteout] nor [translate] (an
    unknown word, say) is laid out as [preserve] is: the loop body returns
    or raises exactly as under [preserve] and appends the same overlay,
    except that the overlay's label is the unknown action itself. *)
Theorem unknown_action_laid_out_as_preserve :
  forall (num : Type) (N : Number num) (img_width img_height : Z)
         (translated_lines : list string) (user_actions : gmap string string)
         (i : nat) (b : region num) (action : string),
    user_actions !! Py.str i = Some action ->
    action <> "whiteout" -> action <> "translate" ->
    Layout.overlay_for img_width img_height translated_lines user_actions i b
    = option_map (option_map (with_action action))
        (Layout.overlay_for img_width img_height translated_lines
           (<[Py.str i := "preserve"]> user_actions) i b)
    /\ forall o,
         Layout.overlay_for img_width img_height translated_lines user_actions i b
         = Some (Some o) ->
         ov_text o = text b /\ ov_action o = action.
Proof.
  intros num N W Ht lines actions i b action Ha Hw Htr.
  assert (Hshown : forall a, a <> "translate" -> Layout.text_shown lines a i b = text b).
  { intros a Hne. unfold Layout.text_shown. by rewrite decide_False. }
  split.
  - unfold Layout.overlay_for. rewrite Ha, lookup_insert_eq.
    change (default "preserve" (Some action)) with action.
    change (default "preserve" (Some "preserve")) with "preserve".
    rewrite decide_False by done.
    rewrite (decide_False (P := "preserve" = "whiteout")) by done.
    rewrite (Hshown action Htr), (Hshown "preserve") by done.
    destruct (Layout.extent (bbox b)) as [[[[x_min x_max] y_min] y_max]|]; [|done].
    cbn [mbind option_bind].
    destruct (Layout.percent x_min W); [|done]. cbn [mbind option_bind].
    destruct (Layout.percent y_min Ht); [|done]. cbn [mbind option_bind].
    destruct (Layout.percent (num_sub x_max x_min) W); [|done]. cbn [mbind option_bind].
    destruct (Layout.percent (num_sub y_max y_min) Ht) as [height_pct|]; [|done].
    cbn [mbind option_bind].
    destruct (Layout.font_size_of height_pct); done.
  - intros o Ho.
    destruct (overlay_for_inv _ _ _ _ _ _ _ Ho)
      as (_ & ? & ? & ? & ? & ? & ? & ? & ? & ? & _ & _ & _ & _ & _ & _ & ->).
    rewrite Ha. change (default "preserve" (Some action)) with action.
    cbn [ov_text ov_action]. by rewrite Hshown.
Qed.

Lemma unknown_action_laid_out_as_preserve_witness :
  exists o : overlay Q,
    Layout.overlay_for 100 100 ["namaste"] {[ "0" := "redact" ]} 0 Samples.region_b
    = Some (Some o)
    /\ ov_text o = "Hello" /\ ov_action o = "redact".
Proof.
  destruct (Layout.overlay_for 100 100 ["namaste"] {[ "0" := "redact" ]} 0
              (Samples.region_b (num := Q))) as [[o|]|] eqn:Ho;
    [| vm_compute in Ho; discriminate | vm_compute in Ho; discriminate].
  exists o. split; [reflexivity |].
  refine (proj2 (unknown_action_laid_out_as_preserve Q _ 100 100 ["namaste"]
                   {[ "0" := "redact" ]} 0 Samples.region_b "redact" eq_refl _ _) o Ho);
    discriminate.
Defined.

(** In exact arithmetic and a real image, the loop body raises only on a
    region that is kept and has no corner points. *)
Lemma overlay_for_Q_is_Some (W Ht : Z) lines (actions : gmap string string) i (b : region Q) :
  (0 < W)%Z -> (0 < Ht)%Z ->
  is_Some (Layout.overlay_for W Ht lines actions i b)
  <-> (default "preserve" (actions !! Py.str i) <> "whiteout" -> bbox b <> []).
Proof.
  intros HW HH. unfold Layout.overlay_for.
  destruct (decide (default "preserve" (actions !! Py.str i) = "whiteout")) as [Hw|Hne].
  - split; [done | by eexists].
  - destruct (Layout.extent (bbox b)) as [[[[x_min x_max] y_min] y_max]|] eqn:He.
    + cbn [mbind option_bind]. rewrite !percent_Q by done. cbn [mbind option_bind].
      split; [| by eexists]. intros _ _ Hnil.
      apply (extent_None (num := Q)) in Hnil. congruence.
    + cbn [mbind option_bind]. apply extent_None in He.
      split; [by intros [? ?] | intros Hq; by destruct (Hq Hne)].
Qed.

Lemma overlays_from_Q_is_Some (W Ht : Z) lines (actions : gmap string string) i
    (bboxes : list (region Q)) :
  (0 < W)%Z -> (0 < Ht)%Z ->
  is_Some (Layout.overlays_from W Ht lines actions i bboxes)
  <-> Forall (fun ib => default "preserve" (actions !! Py.str ib.1) <> "whiteout" ->
                        bbox ib.2 <> [])
             (Py.enumerate_from i bboxes).
Proof.
  intros HW HH. revert i. induction bboxes as [|b rest IH]; intros i.
  - simpl. split; [constructor | by eexists].
  - cbn [Layout.overlays_from Py.enumerate_from].
    rewrite Forall_cons, <- (IH (S i)), <- (overlay_for_Q_is_Some W Ht lines) by done.
    cbn [fst snd].
    destruct (Layout.overlay_for W Ht lines actions i b) as [o|]; cbn [mbind option_bind].
    + destruct (Layout.overlays_from W Ht lines actions (S i) rest);
        cbn [mbind option_bind].
      * split; [intros _; split; by eexists | by eexists].
      * split; [by intros [? ?] | by intros [_ [? ?]]].
    + split; [by intros [? ?] | by intros [[? ?] _]].
Qed.

(** X14.  In exact arithmetic, for a readable image of positive width
    and height, [create_processed_html] returns a document exactly when
    every region that is not blanked has a quad with at least one corner
    point; a blanked region never makes it fail.  When the image cannot
    be read it returns nothing. *)
Theorem processing_succeeds_iff_quads_have_corners :
  forall (image_size : string -> option (Z * Z)) (image_path : string)
         (bboxes : list (region Q)) (translated_lines : list string)
         (user_actions : gmap string string) (target_language : string),
    (image_size image_path = None ->
     Layout.create_processed_html image_size image_path bboxes translated_lines
       user_actions target_language = None)
    /\ forall img_width img_height,
         image_size image_path = Some (img_width, img_height) ->
         (0 < img_width)%Z -> (0 < img_height)%Z ->
         (is_Some (Layout.create_processed_html image_size image_path bboxes
                     translated_lines user_actions target_language)
          <-> Forall (fun ib => default "preserve" (user_actions !! Py.str ib.1)
                                <> "whiteout" -> bbox ib.2 <> [])
                     (Py.enumerate bboxes)).
Proof.
  intros image_size image_path bboxes lines actions lang.
  unfold Layout.create_processed_html. split.
  - by intros ->.
  - intros W Ht -> HW HH. cbn [mbind option_bind].
    rewrite <- (overlays_from_Q_is_Some W Ht lines actions 0 bboxes HW HH).
    destruct (Layout.overlays_from W Ht lines actions 0 bboxes) as [ovs|];
      cbn [mbind option_bind].
    + split; intros _; [exists ovs; reflexivity | eexists; reflexivity].
    + split; intros [? ?]; discriminate.
Qed.

Lemma processing_succeeds_iff_quads_have_corners_witness :
  is_Some (Layout.create_processed_html Samples.square_image "scan.png"
             [Samples.region_a; mk_region [] "stray" 1%Q] []
             {[ "1" := "whiteout" ]} "te").
Proof.
  apply (proj2 (processing_succeeds_iff_quads_have_corners Samples.square_image
                  "scan.png" [Samples.region_a; mk_region [] "stray" 1%Q] []
                  {[ "1" := "whiteout" ]} "te") 100%Z 100%Z eq_refl); [lia | lia |].
  repeat constructor; cbn [fst snd]; vm_compute; [discriminate | intros Hc; by destruct Hc].
Defined.

(** ** Actions chosen on the page *)

Lemma to_uint_not_Nil (n : nat) : Nat.to_uint n <> Decimal.Nil.
Proof.
  intros Hnil. pose proof (DecimalNat.Unsigned.of_to n) as Hn.
  rewrite Hnil in Hn. cbn in Hn. subst n. vm_compute in Hnil. discriminate.
Qed.

Lemma str_inj (i j : nat) : Py.str i = Py.str j -> i = j.
Proof.
  unfold Py.str. intros Heq. apply (f_equal NilZero.uint_of_string) in Heq.
  rewrite !NilZero.usu in Heq by apply to_uint_not_Nil.
  injection Heq as Heq. by apply DecimalNat.Unsigned.to_uint_inj.
Qed.

(** X15.  The action the page records for a region is the action the
    server reads for it, and for no other region: after
    [setRegionAction(i, action)] region [i] is laid out under [action]
    (blanked when it is [whiteout]), every other region is laid out
    exactly as before, and a second choice for the same region replaces
    the first. *)
Theorem region_action_isolated :
  forall (num : Type) (N : Number num) (img_width img_height : Z)
         (translated_lines : list string) (userActions : gmap string string)
         (i j : nat) (action action' : string) (b : region num),
    Page.setRegionAction userActions i action !! Py.str i = Some action
    /\ Layout.overlay_for img_width img_height translated_lines
         (Page.setRegionAction userActions i "whiteout") i b = Some None
    /\ Page.setRegionAction (Page.setRegionAction userActions i action) i action'
       = Page.setRegionAction userActions i action'
    /\ (i <> j ->
        Layout.overlay_for img_width img_height translated_lines
          (Page.setRegionAction userActions i action) j b
        = Layout.overlay_for img_width img_height translated_lines userActions j b).
Proof.
  intros num N W Ht lines actions i j action action' b. unfold Page.setRegionAction.
  split; [apply lookup_insert_eq |].
  split; [apply overlay_for_whiteout, lookup_insert_eq |].
  split; [apply insert_insert_eq |].
  intros Hij. unfold Layout.overlay_for.
  rewrite lookup_insert_ne; [reflexivity |].
  intros Heq. by apply Hij, str_inj.
Qed.

Lemma region_action_isolated_witness :
  Layout.overlay_for 100 100 ["x"; "y"]
    (Page.setRegionAction Page.displayResults 0 "whiteout") 1 (Samples.region_b (num := Q))
  = Layout.overlay_for 100 100 ["x"; "y"] Page.displayResults 1 Samples.region_b.
Proof.
  refine (proj2 (proj2 (proj2 (region_action_isolated Q _ 100 100 ["x"; "y"]
            Page.displayResults 0 1 "whiteout" "whiteout" Samples.region_b))) _).
  discriminate.
Defined.

(** ** The [/api/ollama] endpoint *)

Section EndpointFacts.
Variable ollama_generate : nat -> string -> string -> option string.

Lemma ollama_api_no_prompt (fields : gmap string string) log :
  default "" (fields !! "prompt") = "" ->
  Api.ollama_api ollama_generate (Some fields) log = (ApiNoPrompt, log).
Proof. intros He. unfold Api.ollama_api. by rewrite decide_True. Qed.

Lemma ollama_api_prompt (fields : gmap string string) prompt log :
  fields !! "prompt" = Some prompt -> prompt <> "" ->
  Api.ollama_api ollama_generate (Some fields) log
  = (match ollama_generate (length log) (default Api.default_model (fields !! "model"))
             prompt with
     | Some response => ApiOk response (default Api.default_model (fields !! "model"))
     | None => ApiUnavailable
     end,
     log ++ [(default Api.default_model (fields !! "model"), prompt)]).
Proof.
  intros Hp Hne. unfold Api.ollama_api. rewrite Hp.
  change (default "" (Some prompt)) with prompt.
  rewrite decide_False by done.
  unfold Translate.bind, Translate.generate, Translate.ret.
  by destruct (ollama_generate _ _ _).
Qed.

End EndpointFacts.

(** X16.  [/api/ollama] calls the model at most once, and not at all
    when the body cannot be read or its prompt is missing or empty (the
    400 answer is given exactly in the latter case).  It answers 200
    exactly when the prompt is non-empty and the model answered; the
    reply is passed on untouched and the model name defaults to the legal
    model. *)
Theorem api_calls_model_only_with_prompt :
  forall (ollama_generate : nat -> string -> string -> option string)
         (data : option (gmap string string)) (log : list llm_call),
    let run := Api.ollama_api ollama_generate data log in
    (run.1 = ApiNoPrompt
     <-> exists fields, data = Some fields /\ default "" (fields !! "prompt") = "")
    /\ (forall response model, run.1 = ApiOk response model
        <-> exists fields prompt,
              data = Some fields /\ fields !! "prompt" = Some prompt /\ prompt <> ""
              /\ model = default Api.default_model (fields !! "model")
              /\ ollama_generate (length log) model prompt = Some response
              /\ run.2 = log ++ [(model, prompt)])
    /\ (run.2 = log \/ exists model prompt, prompt <> "" /\ run.2 = log ++ [(model, prompt)])
    /\ ((data = None \/ run.1 = ApiNoPrompt) -> run.2 = log).
Proof.
  intros ollama_generate data log run. subst run.
  destruct data as [fields|].
  2:{ cbn. split; [split; [done | by intros (? & ? & _)] |].
      split; [intros; split; [done | by intros (? & ? & ? & _)] |].
      split; [by left | done]. }
  destruct (decide (default "" (fields !! "prompt") = "")) as [Hempty|Hfull].
  - rewrite (ollama_api_no_prompt _ _ _ Hempty). cbn [fst snd].
    split; [split; [intros _; by exists fields | done] |].
    split; [| split; [by left | done]].
    intros response model. split; [done |].
    intros (f & p & [= <-] & Hp & Hne & _). rewrite Hp in Hempty. done.
  - destruct (fields !! "prompt") as [prompt|] eqn:Hprompt; [| done].
    change (default "" (Some prompt)) with prompt in Hfull.
    rewrite (ollama_api_prompt _ _ _ _ Hprompt Hfull). cbn [fst snd].
    assert (Hno : ~ exists f : gmap string string,
                     Some fields = Some f /\ default "" (f !! "prompt") = "").
    { intros (f & [= <-] & He). rewrite Hprompt in He. done. }
    split; [| split; [| split]].
    + split; [| by intros ?%Hno].
      by destruct (ollama_generate _ _ _).
    + intros response model. split.
      * destruct (ollama_generate _ _ _) as [reply|] eqn:Hreply; [| done].
        intros [= <- <-]. by exists fields, prompt.
      * intros (f & p & [= <-] & Hp & _ & -> & Hr & _).
        rewrite Hprompt in Hp. injection Hp as <-. by rewrite Hr.
    + right. by eexists _, prompt.
    + intros [Hnone|Hbad]; [done |].
      by destruct (ollama_generate _ _ _).
Qed.

Lemma api_calls_model_only_with_prompt_witness :
  Api.ollama_api Samples.service_up (Some Samples.api_body) []
  = (ApiOk "anuvaadam" Api.default_model, [(Api.default_model, "Translate: Hello")]).
Proof.
  destruct (api_calls_model_only_with_prompt Samples.service_up (Some Samples.api_body) [])
    as (_ & Hok & _).
  destruct (proj2 (Hok "anuvaadam" Api.default_model)) as [].
  - exists Samples.api_body, "Translate: Hello". repeat split; try reflexivity.
    discriminate.
  - reflexivity.
Defined.

(** ** Failures and outcomes of the agent pipeline *)

Section OutcomeFacts.
Context {num : Type} `{Number num}.
Variable ollama : nat -> string -> agent_prompt -> option string.
Variable JSON_parse : string -> option (js_value num).
Variable model : string.

Lemma validateTranslation_failure originalText translatedText sourceLang targetLang fw :
  ollama (length (calls fw)) model (ValidationPrompt originalText translatedText) = None ->
  Agents.validateTranslation ollama JSON_parse model originalText translatedText
    sourceLang targetLang fw
  = (Thrown, mk_framework (calls fw ++ [ValidationPrompt originalText translatedText])
                          (agentStates fw)).
Proof.
  intros Hr. unfold Agents.validateTranslation, Agents.bind.
  by rewrite (callOllama_failure _ _ _ _ Hr).
Qed.

Lemma checkConsistency_failure txt targetLang originalText fw :
  ollama (length (calls fw)) model
    (ConsistencyPrompt originalText (Agents.getLanguageName targetLang) txt) = None ->
  Agents.checkConsistency ollama JSON_parse model txt targetLang originalText fw
  = (Thrown,
     mk_framework
       (calls fw ++ [ConsistencyPrompt originalText (Agents.getLanguageName targetLang) txt])
       (agentStates fw)).
Proof.
  intros Hr. unfold Agents.checkConsistency, Agents.bind.
  by rewrite (callOllama_failure _ _ _ _ Hr).
Qed.

(** The improvement was asked for and the model did not answer. *)
Lemma quality_branch_failed originalText sourceLang targetLang context translatedText
    validation check status fw :
  Agents.get validation "status" = Returned status ->
  Agents.needs_improvement status check = true ->
  ollama (length (calls fw)) model (QualityPrompt originalText translatedText context)
  = None ->
  Agents.quality_branch ollama JSON_parse model originalText sourceLang targetLang
    context translatedText validation check fw
  = (Thrown,
     mk_framework (calls fw ++ [QualityPrompt originalText translatedText context])
       (<["qualityAssurance" := Errored]>
          (<["qualityAssurance" := Running]> (agentStates fw)))).
Proof.
  intros Hstatus Hneeds Hr5. unfold Agents.quality_branch.
  unfold Agents.bind at 1. rewrite Hstatus, Hneeds.
  unfold Agents.bind at 1.
  rewrite (executeAgent_thrown "qualityAssurance" _ _
             (mk_framework (calls fw ++ [QualityPrompt originalText translatedText context])
                           (<["qualityAssurance" := Running]> (agentStates fw))));
    [reflexivity |].
  unfold Agents.improveTranslation. by apply callOllama_failure.
Qed.

(** The improvement came back; [finalText] is its trimmed text. *)
Lemma quality_branch_answered originalText sourceLang targetLang context translatedText
    validation check status fw r5 :
  Agents.get validation "status" = Returned status ->
  Agents.needs_improvement status check = true ->
  ollama (length (calls fw)) model (QualityPrompt originalText translatedText context)
  = Some r5 ->
  let fw5 := mk_framework (calls fw ++ [QualityPrompt originalText translatedText context])
               (<["qualityAssurance" := Completed]>
                  (<["qualityAssurance" := Running]> (agentStates fw))) in
  Agents.quality_branch ollama JSON_parse model originalText sourceLang targetLang
    context translatedText validation check fw
  = if decide (Js.trim r5 = translatedText) then (Returned translatedText, fw5)
    else
      match Agents.executeAgent "validator"
              (Agents.validateTranslation ollama JSON_parse model originalText
                 (Js.trim r5) sourceLang targetLang) fw5 with
      | (Returned _, fw6) =>
          (Returned (if decide (Js.trim r5 = "") then translatedText else Js.trim r5), fw6)
      | (Thrown, fw6) => (Thrown, fw6)
      end.
Proof.
  intros Hstatus Hneeds Hr5 fw5. unfold Agents.quality_branch.
  unfold Agents.bind at 1. rewrite Hstatus, Hneeds.
  unfold Agents.bind at 1.
  rewrite (executeAgent_returned "qualityAssurance" _ _ (Js.trim r5)
             (mk_framework (calls fw ++ [QualityPrompt originalText translatedText context])
                           (<["qualityAssurance" := Running]> (agentStates fw)))).
  2:{ unfold Agents.improveTranslation. by apply callOllama_reply. }
  cbn [calls agentStates]. fold fw5.
  unfold Agents.bind at 1.
  destruct (decide (Js.trim r5 = translatedText)) as [Heq|Hne].
  - unfold Agents.ret. rewrite Heq. by destruct (decide (translatedText = "")).
  - unfold Agents.bind at 1.
    destruct (Agents.executeAgent "validator" _ fw5) as [[v|] fw6]; reflexivity.
Qed.

End OutcomeFacts.

(** X17.  The quality agent is registered as not required, yet its
    failure is fatal: when the improvement is needed and the model does
    not answer the improvement prompt, the pipeline throws after its fifth
    call, records the agent as failed and returns no text, although the
    Translation stage had produced one. *)
Theorem improvement_failure_is_fatal :
  forall (num : Type) (N : Number num)
         (ollama : nat -> string -> agent_prompt -> option string)
         (JSON_parse : string -> option (js_value num)) (model : string)
         (originalText sourceLang targetLang : string) (fw : framework)
         (r1 r2 r3 r4 : string) (status : js_value num),
    let lang := Agents.getLanguageName targetLang in
    let context := Js.trim r1 in
    let translatedText := Js.trim r2 in
    let validation :=
      match JSON_parse (Js.trim r3) with
      | Some v => v
      | None => Agents.validation_fallback
      end in
    let consistencyCheck :=
      match Agents.consistency_parsed JSON_parse (Js.trim r4) lang with
      | Some verdict => verdict
      | None => Agents.consistency_fallback (Js.trim r4) lang
      end in
    let run := Agents.executeTranslationPipeline ollama JSON_parse model originalText
                 sourceLang targetLang fw in
    ollama (length (calls fw)) model (ContextPrompt originalText lang) = Some r1 ->
    ollama (length (calls fw) + 1) model (TranslationPrompt lang context originalText)
    = Some r2 ->
    ollama (length (calls fw) + 2) model (ValidationPrompt originalText translatedText)
    = Some r3 ->
    ollama (length (calls fw) + 3) model (ConsistencyPrompt originalText lang translatedText)
    = Some r4 ->
    Agents.get validation "status" = Returned status ->
    Agents.needs_improvement status consistencyCheck = true ->
    ollama (length (calls fw) + 4) model (QualityPrompt originalText translatedText context)
    = None ->
    cfg_required <$> Registry.agents_get Registry.initializeAgents "qualityAssurance"
    = Some false
    /\ run.1 = Thrown
    /\ calls run.2
       = calls fw ++ [ ContextPrompt originalText lang;
                        TranslationPrompt lang context originalText;
                        ValidationPrompt originalText translatedText;
                        ConsistencyPrompt originalText lang translatedText;
                        QualityPrompt originalText translatedText context ]
    /\ agentStates run.2 !! "qualityAssurance" = Some Errored
    /\ agentStates run.2 !! "translator" = Some Completed.
Proof.
  intros num N ollama JSON_parse model originalText sourceLang targetLang fw r1 r2 r3 r4
    status lang context translatedText validation consistencyCheck run Hr1 Hr2 Hr3 Hr4 Hstatus Hneeds Hr5.
  assert (Hrun : run = Agents.quality_branch ollama JSON_parse model originalText
                         sourceLang targetLang context translatedText validation
                         consistencyCheck
                         (mk_framework
                            (calls fw ++ [ ContextPrompt originalText lang;
                                           TranslationPrompt lang context originalText;
                                           ValidationPrompt originalText translatedText;
                                           ConsistencyPrompt originalText lang
                                             translatedText ])
                            Agents.states_after_checks)).
  { subst run. by apply pipeline_reaches_branch. }
  rewrite Hrun.
  rewrite (quality_branch_failed _ _ _ _ _ _ _ _ _ _ status) by
    (try done; cbn [calls]; rewrite length_app; exact Hr5).
  cbn [fst snd calls agentStates]. rewrite <- app_assoc.
  repeat split; reflexivity.
Qed.

Lemma improvement_failure_is_fatal_witness :
  (Agents.executeTranslationPipeline Samples.model_down_at_improvement Samples.parse_sample
     "gemma3:4b" "TENDER ENQUIRY NOTICE" "en" "te" Samples.fresh_framework).1
  = Thrown.
Proof.
  destruct (improvement_failure_is_fatal Q _ Samples.model_down_at_improvement
              Samples.parse_sample "gemma3:4b" "TENDER ENQUIRY NOTICE" "en" "te"
              Samples.fresh_framework
              "A tender notice, India, procurement, formal." " anuvaadam "
              "The translation looks fine to me."
              "The wording is Inconsistent in two places." (JStr "needs_revision")
              eq_refl eq_refl eq_refl eq_refl eq_refl eq_refl eq_refl)
    as (_ & Hthrown & _).
  exact Hthrown.
Defined.



(** X19.  A Validation reply that is the JSON [null] parses, so the
    fallback verdict is not used; the pipeline then throws when it reads
    the verdict's status: all four agents have completed, no improvement
    is asked for and no text is returned. *)
Theorem null_verdict_aborts_pipeline :
  forall (num : Type) (N : Number num)
         (ollama : nat -> string -> agent_prompt -> option string)
         (JSON_parse : string -> option (js_value num)) (model : string)
         (originalText sourceLang targetLang : string) (fw : framework)
         (r1 r2 r3 r4 : string),
    let lang := Agents.getLanguageName targetLang in
    let context := Js.trim r1 in
    let translatedText := Js.trim r2 in
    let validation :=
      match JSON_parse (Js.trim r3) with
      | Some v => v
      | None => Agents.validation_fallback
      end in
    let consistencyCheck :=
      match Agents.consistency_parsed JSON_parse (Js.trim r4) lang with
      | Some verdict => verdict
      | None => Agents.consistency_fallback (Js.trim r4) lang
      end in
    let run := Agents.executeTranslationPipeline ollama JSON_parse model originalText
                 sourceLang targetLang fw in
    ollama (length (calls fw)) model (ContextPrompt originalText lang) = Some r1 ->
    ollama (length (calls fw) + 1) model (TranslationPrompt lang context originalText)
    = Some r2 ->
    ollama (length (calls fw) + 2) model (ValidationPrompt originalText translatedText)
    = Some r3 ->
    ollama (length (calls fw) + 3) model (ConsistencyPrompt originalText lang translatedText)
    = Some r4 ->
    JSON_parse (Js.trim r3) = Some JNull ->
    run.1 = Thrown
    /\ calls run.2
       = calls fw ++ [ ContextPrompt originalText lang;
                        TranslationPrompt lang context originalText;
                        ValidationPrompt originalText translatedText;
                        ConsistencyPrompt originalText lang translatedText ]
    /\ agentStates run.2 !! "validator" = Some Completed
    /\ agentStates run.2 !! "languageConsistencyChecker" = Some Completed
    /\ agentStates run.2 !! "qualityAssurance" = None.
Proof.
  intros num N ollama JSON_parse model originalText sourceLang targetLang fw r1 r2 r3 r4
     lang context translatedText validation consistencyCheck run Hr1 Hr2 Hr3 Hr4 Hnull.
  assert (Hrun : run = Agents.quality_branch ollama JSON_parse model originalText
                         sourceLang targetLang context translatedText validation
                         consistencyCheck
                         (mk_framework
                            (calls fw ++ [ ContextPrompt originalText lang;
                                           TranslationPrompt lang context originalText;
                                           ValidationPrompt originalText translatedText;
                                           ConsistencyPrompt originalText lang
                                             translatedText ])
                            Agents.states_after_checks)).
  { subst run. by apply pipeline_reaches_branch. }
  rewrite Hrun. unfold Agents.quality_branch, Agents.bind.
  subst validation. rewrite Hnull. cbn [Agents.get fst snd calls agentStates].
  repeat split; reflexivity.
Qed.

Lemma null_verdict_aborts_pipeline_witness :
  (Agents.executeTranslationPipeline Samples.model_validates_null Samples.parse_sample
     "gemma3:4b" "TENDER ENQUIRY NOTICE" "en" "te" Samples.fresh_framework).1
  = Thrown.
Proof.
  exact (proj1 (null_verdict_aborts_pipeline Q _ Samples.model_validates_null
                  Samples.parse_sample "gemma3:4b" "TENDER ENQUIRY NOTICE" "en" "te"
                  Samples.fresh_framework
                  "A tender notice, India, procurement, formal." " anuvaadam "
                  "null" Samples.reply_consistent
                  eq_refl eq_refl eq_refl eq_refl eq_refl)).
Defined.

(** X20.  A ConsistencyCheck reply that parses to an object without an
    [isConsistent] field yields a verdict whose [isConsistent] is
    [undefined]; a missing score becomes 0 and missing lists become empty.
    The pipeline takes the undefined flag as "inconsistent": the
    improvement is asked for even when the validation verdict is valid. *)
Theorem missing_flag_triggers_improvement :
  forall (num : Type) (N : Number num)
         (ollama : nat -> string -> agent_prompt -> option string)
         (JSON_parse : string -> option (js_value num)) (model : string)
         (originalText sourceLang targetLang : string) (fw : framework)
         (r1 r2 r3 r4 : string) (status : js_value num) (fields : list (string * js_value num)),
    let lang := Agents.getLanguageName targetLang in
    let context := Js.trim r1 in
    let translatedText := Js.trim r2 in
    let validation :=
      match JSON_parse (Js.trim r3) with
      | Some v => v
      | None => Agents.validation_fallback
      end in
    let consistencyCheck :=
      match Agents.consistency_parsed JSON_parse (Js.trim r4) lang with
      | Some verdict => verdict
      | None => Agents.consistency_fallback (Js.trim r4) lang
      end in
    let run := Agents.executeTranslationPipeline ollama JSON_parse model originalText
                 sourceLang targetLang fw in
    ollama (length (calls fw)) model (ContextPrompt originalText lang) = Some r1 ->
    ollama (length (calls fw) + 1) model (TranslationPrompt lang context originalText)
    = Some r2 ->
    ollama (length (calls fw) + 2) model (ValidationPrompt originalText translatedText)
    = Some r3 ->
    ollama (length (calls fw) + 3) model (ConsistencyPrompt originalText lang translatedText)
    = Some r4 ->
    Agents.get validation "status" = Returned status ->
    JSON_parse (Js.trim r4) = Some (JObj fields) ->
    dict_get fields "isConsistent" JUndefined = JUndefined ->
    isConsistent consistencyCheck = JUndefined
    /\ (dict_get fields "consistencyScore" JUndefined = JUndefined ->
        consistencyScore consistencyCheck = JNum (num_of_Z 0))
    /\ (dict_get fields "mixedWords" JUndefined = JUndefined ->
        mixedWords consistencyCheck = JArr [])
    /\ calls run.2 !! (length (calls fw) + 4)
       = Some (QualityPrompt originalText translatedText context)
    /\ is_Some (agentStates run.2 !! "qualityAssurance").
Proof.
  intros num N ollama JSON_parse model originalText sourceLang targetLang fw r1 r2 r3 r4
    status fields lang context translatedText validation consistencyCheck run Hr1 Hr2 Hr3 Hr4 Hstatus Hparse Hmissing.
  assert (Hrun : run = Agents.quality_branch ollama JSON_parse model originalText
                         sourceLang targetLang context translatedText validation
                         consistencyCheck
                         (mk_framework
                            (calls fw ++ [ ContextPrompt originalText lang;
                                           TranslationPrompt lang context originalText;
                                           ValidationPrompt originalText translatedText;
                                           ConsistencyPrompt originalText lang
                                             translatedText ])
                            Agents.states_after_checks)).
  { subst run. by apply pipeline_reaches_branch. }
  assert (Hcheck : consistencyCheck
                   = mk_consistency_check JUndefined
                       (Agents.js_or (dict_get fields "mixedWords" JUndefined) (JArr []))
                       (Agents.js_or (dict_get fields "mixedLanguages" JUndefined) (JArr []))
                       (Agents.js_or (dict_get fields "consistencyScore" JUndefined)
                                     (JNum (num_of_Z 0)))
                       (Agents.js_or (dict_get fields "recommendations" JUndefined) (JArr []))
                       lang).
  { subst consistencyCheck. unfold Agents.consistency_parsed. rewrite Hparse.
    cbn [Agents.get]. by rewrite Hmissing. }
  clearbody consistencyCheck.
  assert (Hneeds : Agents.needs_improvement status consistencyCheck = true).
  { apply (proj2 (needs_improvement_true JSON_parse model status consistencyCheck)).
    right. right. by rewrite Hcheck. }
  split; [by rewrite Hcheck |].
  split; [intros Hs; rewrite Hcheck; cbn [consistencyScore]; by rewrite Hs |].
  split; [intros Hw; rewrite Hcheck; cbn [mixedWords]; by rewrite Hw |].
  rewrite Hrun.
  destruct (quality_branch_taken ollama JSON_parse model originalText sourceLang
              targetLang context translatedText validation consistencyCheck status
              (mk_framework
                 (calls fw ++ [ ContextPrompt originalText lang;
                                TranslationPrompt lang context originalText;
                                ValidationPrompt originalText translatedText;
                                ConsistencyPrompt originalText lang translatedText ])
                 Agents.states_after_checks) Hstatus Hneeds) as [Hcall Hstate].
  cbn [calls] in Hcall. rewrite length_app in Hcall. cbn [length] in Hcall.
  by split.
Qed.

Lemma missing_flag_triggers_improvement_witness :
  calls (Agents.executeTranslationPipeline Samples.model_wrong_shape Samples.parse_sample
           "gemma3:4b" "TENDER ENQUIRY NOTICE" "en" "te" Samples.fresh_framework).2 !! 4
  = Some (QualityPrompt "TENDER ENQUIRY NOTICE" "anuvaadam"
            "A tender notice, India, procurement, formal.").
Proof.
  destruct (missing_flag_triggers_improvement Q _ Samples.model_wrong_shape
              Samples.parse_sample "gemma3:4b" "TENDER ENQUIRY NOTICE" "en" "te"
              Samples.fresh_framework
              "A tender notice, India, procurement, formal." " anuvaadam "
              Samples.reply_valid Samples.reply_valid (JStr "valid")
              [("status", JStr "valid")]
              eq_refl eq_refl eq_refl eq_refl eq_refl eq_refl eq_refl)
    as (_ & _ & _ & Hcall & _).
  exact Hcall.
Defined.

(** Steps of a run: a stage that returns, a stage that throws. *)
Ltac stage_returns Hreply :=
  unfold Agents.bind at 1;
  erewrite executeAgent_returned;
  [ cbn [calls agentStates]
  | first [ unfold Agents.analyzeContext; apply callOllama_reply
          | unfold Agents.translate; apply callOllama_reply
          | apply validateTranslation_reply
          | apply checkConsistency_reply ];
    cbn [calls]; rewrite ?length_app; cbn [length]; rewrite <- ?Nat.add_assoc;
    exact Hreply ].

Ltac stage_throws Hreply :=
  unfold Agents.bind at 1;
  erewrite executeAgent_thrown;
  [ cbn [fst snd calls agentStates]
  | first [ unfold Agents.analyzeContext; apply callOllama_failure
          | unfold Agents.translate; apply callOllama_failure
          | apply validateTranslation_failure
          | apply checkConsistency_failure ];
    cbn [calls]; rewrite ?length_app; cbn [length]; rewrite <- ?Nat.add_assoc;
    exact Hreply ].

(** X21.  The pipeline stops at the first of its four leading stages
    whose call fails: it throws, the calls made are exactly those up to
    and including the failed one, the failed agent is recorded as failed,
    and the stages after it are neither called nor recorded. *)
Theorem stage_failure_aborts_pipeline :
  forall (num : Type) (N : Number num)
         (ollama : nat -> string -> agent_prompt -> option string)
         (JSON_parse : string -> option (js_value num)) (model : string)
         (originalText sourceLang targetLang : string) (fw : framework)
         (r1 r2 r3 : string),
    let lang := Agents.getLanguageName targetLang in
    let context := Js.trim r1 in
    let translatedText := Js.trim r2 in
    let p1 := ContextPrompt originalText lang in
    let p2 := TranslationPrompt lang context originalText in
    let p3 := ValidationPrompt originalText translatedText in
    let p4 := ConsistencyPrompt originalText lang translatedText in
    let run := Agents.executeTranslationPipeline ollama JSON_parse model originalText
                 sourceLang targetLang fw in
    (ollama (length (calls fw)) model p1 = None ->
     run.1 = Thrown /\ calls run.2 = calls fw ++ [p1]
     /\ agentStates run.2 !! "contextAnalyzer" = Some Errored
     /\ agentStates run.2 !! "translator" = None)
    /\ (ollama (length (calls fw)) model p1 = Some r1 ->
        ollama (length (calls fw) + 1) model p2 = None ->
        run.1 = Thrown /\ calls run.2 = calls fw ++ [p1; p2]
        /\ agentStates run.2 !! "translator" = Some Errored
        /\ agentStates run.2 !! "validator" = None)
    /\ (ollama (length (calls fw)) model p1 = Some r1 ->
        ollama (length (calls fw) + 1) model p2 = Some r2 ->
        ollama (length (calls fw) + 2) model p3 = None ->
        run.1 = Thrown /\ calls run.2 = calls fw ++ [p1; p2; p3]
        /\ agentStates run.2 !! "validator" = Some Errored
        /\ agentStates run.2 !! "languageConsistencyChecker" = None)
    /\ (ollama (length (calls fw)) model p1 = Some r1 ->
        ollama (length (calls fw) + 1) model p2 = Some r2 ->
        ollama (length (calls fw) + 2) model p3 = Some r3 ->
        ollama (length (calls fw) + 3) model p4 = None ->
        run.1 = Thrown /\ calls run.2 = calls fw ++ [p1; p2; p3; p4]
        /\ agentStates run.2 !! "languageConsistencyChecker" = Some Errored
        /\ agentStates run.2 !! "qualityAssurance" = None).
Proof.
  intros num N ollama JSON_parse model originalText sourceLang targetLang fw r1 r2 r3
    lang context translatedText p1 p2 p3 p4 run.
  split; [| split; [| split]].
  - intros H1. eassert (Hrun : run = _).
    { subst run. unfold Agents.executeTranslationPipeline.
      unfold Agents.bind at 1. unfold Agents.clear_states.
      stage_throws H1. reflexivity. }
    rewrite Hrun. repeat split; reflexivity.
  - intros H1 H2. eassert (Hrun : run = _).
    { subst run. unfold Agents.executeTranslationPipeline.
      unfold Agents.bind at 1. unfold Agents.clear_states.
      stage_returns H1. stage_throws H2. reflexivity. }
    rewrite Hrun. cbn [fst snd calls agentStates]. rewrite <- !app_assoc.
    repeat split; reflexivity.
  - intros H1 H2 H3. eassert (Hrun : run = _).
    { subst run. unfold Agents.executeTranslationPipeline.
      unfold Agents.bind at 1. unfold Agents.clear_states.
      stage_returns H1. stage_returns H2. stage_throws H3. reflexivity. }
    rewrite Hrun. cbn [fst snd calls agentStates]. rewrite <- !app_assoc.
    repeat split; reflexivity.
  - intros H1 H2 H3 H4. eassert (Hrun : run = _).
    { subst run. unfold Agents.executeTranslationPipeline.
      unfold Agents.bind at 1. unfold Agents.clear_states.
      stage_returns H1. stage_returns H2. stage_returns H3. stage_throws H4.
      reflexivity. }
    rewrite Hrun. cbn [fst snd calls agentStates]. rewrite <- !app_assoc.
    repeat split; reflexivity.
Qed.

Lemma stage_failure_aborts_pipeline_witness :
  Agents.executeTranslationPipeline Samples.model_down_at_validation Samples.parse_sample
    "gemma3:4b" "TENDER ENQUIRY NOTICE" "en" "te" Samples.fresh_framework
  = (Thrown,
     mk_framework
       [ ContextPrompt "TENDER ENQUIRY NOTICE" "Telugu";
         TranslationPrompt "Telugu" "A tender notice, India, procurement, formal."
           "TENDER ENQUIRY NOTICE";
         ValidationPrompt "TENDER ENQUIRY NOTICE" "anuvaadam" ]
       (agentStates
          (Agents.executeTranslationPipeline Samples.model_down_at_validation
             Samples.parse_sample (num := Q) "gemma3:4b" "TENDER ENQUIRY NOTICE" "en" "te"
             Samples.fresh_framework).2)).
Proof.
  destruct (stage_failure_aborts_pipeline Q _ Samples.model_down_at_validation
              Samples.parse_sample "gemma3:4b" "TENDER ENQUIRY NOTICE" "en" "te"
              Samples.fresh_framework
              "A tender notice, India, procurement, formal." " anuvaadam " "")
    as (_ & _ & Hthird & _).
  destruct (Hthird eq_refl eq_refl eq_refl) as (Hout & Hcalls & _).
  destruct (Agents.executeTranslationPipeline _ _ _ _ _ _ _) as [out [sent states]].
  cbn in Hout, Hcalls. by subst.
Defined.

(** ** What every run of the pipeline respects *)

Section BudgetFacts.
Context {num : Type} `{Number num}.
Variable ollama : nat -> string -> agent_prompt -> option string.
Variable JSON_parse : string -> option (js_value num).
Variable model : string.

Lemma quality_count_app (a b : list agent_prompt) :
  Registry.quality_count (a ++ b) = Registry.quality_count a + Registry.quality_count b.
Proof. unfold Registry.quality_count. by rewrite filter_app, length_app. Qed.

Lemma sends_ret {A} (a : A) : Registry.sends_at_most 0 0 (Agents.ret a).
Proof. intros fw. exists []. cbn. by rewrite app_nil_r. Qed.

Lemma sends_weaken {A} n q n' q' (m : Agents.J A) :
  n <= n' -> q <= q' -> Registry.sends_at_most n q m -> Registry.sends_at_most n' q' m.
Proof.
  intros Hn Hq Hm fw. destruct (Hm fw) as (sent & Hcalls & Hlen & Hcount).
  exists sent. repeat split; [done | lia | lia].
Qed.

Lemma sends_bind {A B} n1 q1 n2 q2 (m : Agents.J A) (k : A -> Agents.J B) :
  Registry.sends_at_most n1 q1 m ->
  (forall a, Registry.sends_at_most n2 q2 (k a)) ->
  Registry.sends_at_most (n1 + n2) (q1 + q2) (Agents.bind m k).
Proof.
  intros Hm Hk fw. unfold Agents.bind.
  destruct (Hm fw) as (sent1 & Hcalls1 & Hlen1 & Hcount1).
  destruct (m fw) as [[a|] fw1]; cbn [snd] in Hcalls1.
  - destruct (Hk a fw1) as (sent2 & Hcalls2 & Hlen2 & Hcount2).
    exists (sent1 ++ sent2). rewrite Hcalls2, Hcalls1, <- app_assoc.
    rewrite length_app, quality_count_app. repeat split; [lia | lia].
  - exists sent1. cbn [snd]. repeat split; [done | lia | lia].
Qed.

Lemma sends_callOllama prompt :
  Registry.sends_at_most 1 (if Registry.is_quality_prompt prompt then 1 else 0)
    (Agents.callOllama ollama model prompt).
Proof.
  intros fw. exists [prompt]. unfold Agents.callOllama.
  destruct (ollama (length (calls fw)) model prompt); cbn [snd calls];
    (split; [reflexivity |]; split; [simpl; lia |]);
    unfold Registry.quality_count; rewrite filter_cons;
    destruct (Registry.is_quality_prompt prompt); simpl; lia.
Qed.

Lemma sends_executeAgent {A} n q agentName (run : Agents.J A) :
  Registry.sends_at_most n q run ->
  Registry.sends_at_most n q (Agents.executeAgent agentName run).
Proof.
  intros Hrun fw. unfold Agents.executeAgent.
  destruct (Hrun (mk_framework (calls fw) (<[agentName := Running]> (agentStates fw))))
    as (sent & Hcalls & Hlen & Hcount).
  destruct (run _) as [[a|] fw']; cbn [snd calls] in *; by exists sent.
Qed.

Lemma sends_validateTranslation originalText translatedText sourceLang targetLang :
  Registry.sends_at_most 1 0
    (Agents.validateTranslation ollama JSON_parse model originalText translatedText
       sourceLang targetLang).
Proof.
  unfold Agents.validateTranslation.
  apply (sends_bind 1 0 0 0); [apply (sends_callOllama (ValidationPrompt _ _)) |].
  intros result. destruct (JSON_parse result); apply sends_ret.
Qed.

Lemma sends_checkConsistency txt targetLang originalText :
  Registry.sends_at_most 1 0
    (Agents.checkConsistency ollama JSON_parse model txt targetLang originalText).
Proof.
  unfold Agents.checkConsistency.
  apply (sends_bind 1 0 0 0); [apply (sends_callOllama (ConsistencyPrompt _ _ _)) |].
  intros result. destruct (Agents.consistency_parsed _ _ _); apply sends_ret.
Qed.

Lemma sends_quality_branch originalText sourceLang targetLang context translatedText
    validation check :
  Registry.sends_at_most 2 1
    (Agents.quality_branch ollama JSON_parse model originalText sourceLang targetLang
       context translatedText validation check).
Proof.
  unfold Agents.quality_branch.
  apply (sends_bind 0 0 2 1).
  { intros fw. exists []. cbn [snd]. by rewrite app_nil_r. }
  intros status. apply (sends_bind 1 1 1 0).
  { destruct (Agents.needs_improvement status check).
    - apply sends_executeAgent, (sends_callOllama (QualityPrompt _ _ _)).
    - apply (sends_weaken 0 0); [lia | lia | apply sends_ret]. }
  intros finalText. apply (sends_bind 1 0 0 0); [| intros; apply sends_ret].
  destruct (decide (finalText = translatedText)).
  - apply (sends_weaken 0 0); [lia | lia | apply sends_ret].
  - apply (sends_bind 1 0 0 0); [| intros; apply sends_ret].
    apply sends_executeAgent, sends_validateTranslation.
Qed.

End BudgetFacts.

(** X22.  No run of the pipeline, whatever the model replies and
    wherever it fails, sends more than six prompts, and at most one of
    them is an improvement prompt: there is a single improvement round
    and never a loop.  Earlier calls of the framework stay in its log. *)
Theorem pipeline_call_budget :
  forall (num : Type) (N : Number num)
         (ollama : nat -> string -> agent_prompt -> option string)
         (JSON_parse : string -> option (js_value num)) (model : string)
         (originalText sourceLang targetLang : string) (fw : framework),
    exists sent,
      calls (Agents.executeTranslationPipeline ollama JSON_parse model originalText
               sourceLang targetLang fw).2 = calls fw ++ sent
      /\ length sent <= 6
      /\ Registry.quality_count sent <= 1.
Proof.
  intros num N ollama JSON_parse model originalText sourceLang targetLang.
  change (Registry.sends_at_most 6 1
            (Agents.executeTranslationPipeline ollama JSON_parse model originalText
               sourceLang targetLang)).
  unfold Agents.executeTranslationPipeline.
  apply (sends_bind 0 0 6 1).
  { intros fw. exists []. cbn [snd calls]. by rewrite app_nil_r. }
  intros _. apply (sends_bind 1 0 5 1).
  { apply sends_executeAgent, (sends_callOllama ollama model (ContextPrompt _ _)). }
  intros context. apply (sends_bind 1 0 4 1).
  { apply sends_executeAgent, (sends_callOllama ollama model (TranslationPrompt _ _ _)). }
  intros translatedText. apply (sends_bind 1 0 3 1).
  { apply sends_executeAgent, sends_validateTranslation. }
  intros validation. apply (sends_bind 1 0 2 1).
  { apply sends_executeAgent, sends_checkConsistency. }
  intros consistencyCheck. apply sends_quality_branch.
Qed.

Section SettledFacts.
Context {num : Type} `{Number num}.
Variable ollama : nat -> string -> agent_prompt -> option string.
Variable JSON_parse : string -> option (js_value num).
Variable model : string.

Lemma callOllama_states prompt fw :
  agentStates (Agents.callOllama ollama model prompt fw).2 = agentStates fw.
Proof. unfold Agents.callOllama. by destruct (ollama _ _ _). Qed.

Lemma validateTranslation_states originalText translatedText sourceLang targetLang fw :
  agentStates (Agents.validateTranslation ollama JSON_parse model originalText
                 translatedText sourceLang targetLang fw).2 = agentStates fw.
Proof.
  unfold Agents.validateTranslation, Agents.bind, Agents.callOllama.
  destruct (ollama _ _ _) as [r|]; [destruct (JSON_parse (Js.trim r)) |]; reflexivity.
Qed.

Lemma checkConsistency_states txt targetLang originalText fw :
  agentStates (Agents.checkConsistency ollama JSON_parse model txt targetLang
                 originalText fw).2 = agentStates fw.
Proof.
  unfold Agents.checkConsistency, Agents.bind, Agents.callOllama.
  destruct (ollama _ _ _) as [r|]; [destruct (Agents.consistency_parsed _ _ _) |];
    reflexivity.
Qed.

(** Running a registered agent whose method leaves the states alone
    keeps the record settled. *)
Lemma settled_executeAgent {A} agentName (run : Agents.J A) fw :
  is_Some (Registry.agents_get Registry.initializeAgents agentName) ->
  (forall fw0, agentStates (run fw0).2 = agentStates fw0) ->
  Registry.settled (agentStates fw) ->
  Registry.settled (agentStates (Agents.executeAgent agentName run fw).2).
Proof.
  intros Hreg Hrun Hfw. unfold Agents.executeAgent.
  pose proof (Hrun (mk_framework (calls fw) (<[agentName := Running]> (agentStates fw))))
    as Hstates.
  destruct (run _) as [[a|] fw']; cbn [snd agentStates] in *; rewrite Hstates;
    intros k st Hk;
    (destruct (decide (agentName = k)) as [<-|Hne];
     [ rewrite lookup_insert_eq in Hk; injection Hk as <-; by split
     | rewrite !lookup_insert_ne in Hk by done; by apply Hfw ]).
Qed.

Lemma settled_bind {A B} (m : Agents.J A) (k : A -> Agents.J B) fw :
  Registry.settled (agentStates (m fw).2) ->
  (forall a fw', Registry.settled (agentStates fw') ->
                 Registry.settled (agentStates (k a fw').2)) ->
  Registry.settled (agentStates (Agents.bind m k fw).2).
Proof.
  intros Hm Hk. unfold Agents.bind.
  destruct (m fw) as [[a|] fw']; cbn [snd] in *; [by apply Hk | exact Hm].
Qed.

Lemma settled_quality_branch originalText sourceLang targetLang context translatedText
    validation check fw :
  Registry.settled (agentStates fw) ->
  Registry.settled
    (agentStates (Agents.quality_branch ollama JSON_parse model originalText sourceLang
                    targetLang context translatedText validation check fw).2).
Proof.
  intros Hfw. unfold Agents.quality_branch.
  apply settled_bind; [exact Hfw |]. intros status fw1 Hfw1.
  apply settled_bind.
  { destruct (Agents.needs_improvement status check); [| exact Hfw1].
    apply settled_executeAgent; [by eexists | | exact Hfw1].
    intros fw0. apply callOllama_states. }
  intros finalText fw2 Hfw2.
  apply settled_bind; [| intros _ fw3 Hfw3; exact Hfw3].
  destruct (decide (finalText = translatedText)); [exact Hfw2 |].
  apply settled_bind; [| intros _ fw3 Hfw3; exact Hfw3].
  apply settled_executeAgent; [by eexists | | exact Hfw2].
  intros fw0. apply validateTranslation_states.
Qed.

End SettledFacts.

(** X23.  After any run of the pipeline, returned or thrown and from any
    earlier state of the framework, the recorded agent states are settled:
    every recorded agent is one of the five registered ones, and none is
    left in the state [running]. *)
Theorem pipeline_leaves_no_agent_running :
  forall (num : Type) (N : Number num)
         (ollama : nat -> string -> agent_prompt -> option string)
         (JSON_parse : string -> option (js_value num)) (model : string)
         (originalText sourceLang targetLang : string) (fw : framework)
         (agentName : string) (st : agent_status),
    agentStates (Agents.executeTranslationPipeline ollama JSON_parse model originalText
                   sourceLang targetLang fw).2 !! agentName = Some st ->
    is_Some (Registry.agents_get Registry.initializeAgents agentName)
    /\ st <> Running.
Proof.
  intros num N ollama JSON_parse model originalText sourceLang targetLang fw.
  change (Registry.settled
            (agentStates (Agents.executeTranslationPipeline ollama JSON_parse model
                            originalText sourceLang targetLang fw).2)).
  unfold Agents.executeTranslationPipeline.
  apply settled_bind; [by intros k st Hk |]. intros _ fw0 Hfw0.
  apply settled_bind.
  { apply settled_executeAgent; [by eexists | | exact Hfw0].
    intros fw'. apply callOllama_states. }
  intros context fw1 Hfw1. apply settled_bind.
  { apply settled_executeAgent; [by eexists | | exact Hfw1].
    intros fw'. apply callOllama_states. }
  intros translatedText fw2 Hfw2. apply settled_bind.
  { apply settled_executeAgent; [by eexists | | exact Hfw2].
    intros fw'. apply validateTranslation_states. }
  intros validation fw3 Hfw3. apply settled_bind.
  { apply settled_executeAgent; [by eexists | | exact Hfw3].
    intros fw'. apply checkConsistency_states. }
  intros consistencyCheck fw4 Hfw4. by apply settled_quality_branch.
Qed.

Lemma pipeline_leaves_no_agent_running_witness :
  agentStates
    (Agents.executeTranslationPipeline Samples.model_down_at_improvement
       Samples.parse_sample (num := Q) "gemma3:4b" "TENDER ENQUIRY NOTICE" "en" "te"
       (mk_framework [] {[ "validator" := Running ]})).2 !! "qualityAssurance"
  = Some Errored.
Proof.
  destruct (agentStates _ !! "qualityAssurance") as [st|] eqn:Hst;
    [| vm_compute in Hst; discriminate].
  destruct (pipeline_leaves_no_agent_running Q _ _ _ _ _ _ _ _ _ _ Hst) as [_ Hsettled].
  destruct st; [done | vm_compute in Hst; discriminate | reflexivity].
Defined.
